(** * The SageMaker / Astra DB entomology notebook: retrieval plus generation

    A shallow embedding of the Python cells of
    [docs/pages/aiml/aws/notebooks/sagemaker.ipynb] that make up the
    retrieval-augmented pipeline: the preparation of the record ids, the
    retrieval helper [find_similar_entries], the prompt assembly
    ([describe_candidates], [format_prompt]), the answer function
    [identify_and_suggest] and the interactive input loop.

    Conventions.
    - A Python [str] is a Rocq [string]; each [ascii] stands for one code
      point below 256 (the Latin-1 range), which is where [str.strip],
      [str.lower] and [str.isspace] are modelled.
    - A Python [dict] with string keys is a [gmap string _].
    - The vector store and the language model are remote collaborators: they
      are section variables acting on an abstract remote state, may raise,
      and every call made to them is recorded in a log.
    - Python exceptions are the [Raise] outcome of the monad [M]. *)

From Stdlib Require Import ZArith Ascii String DecimalString.
From stdpp Require Import gmap strings list fin_maps.

Local Open Scope string_scope.
Local Open Scope list_scope.

(** ** Python string primitives *)

Module PyStr.

(** [str.isspace] on one code point of the Latin-1 range: TAB..CR,
    FS..US, SPACE, NEL (0x85) and NBSP (0xA0). *)
Definition isspace (c : ascii) : bool :=
  let n := N_of_ascii c in
  ((9 <=? n) && (n <=? 13) || (28 <=? n) && (n <=? 32)
   || (n =? 133) || (n =? 160))%N.

(** [s.lstrip()] *)
Fixpoint lstrip (s : string) : string :=
  match s with
  | EmptyString => EmptyString
  | String c r => if isspace c then lstrip r else s
  end.

(** [s.rstrip()] *)
Fixpoint rstrip (s : string) : string :=
  match s with
  | EmptyString => EmptyString
  | String c r =>
      match rstrip r with
      | EmptyString => if isspace c then EmptyString else String c EmptyString
      | r' => String c r'
      end
  end.

(** [s.strip()] *)
Definition strip (s : string) : string := rstrip (lstrip s).

(** Truth value of a string: [bool(s)] is [len(s) != 0]. *)
Definition truthy (s : string) : bool :=
  match s with EmptyString => false | String _ _ => true end.

(** [str.lower] on one code point of the Latin-1 range: A..Z and the
    accented capitals 0xC0..0xDE, the multiplication sign 0xD7 apart,
    move up by 32. *)
Definition lower_char (c : ascii) : ascii :=
  let n := N_of_ascii c in
  if ((65 <=? n) && (n <=? 90)
      || (192 <=? n) && (n <=? 222) && negb (n =? 215))%N
  then ascii_of_N (n + 32) else c.

(** [s.lower()] *)
Fixpoint lower (s : string) : string :=
  match s with
  | EmptyString => EmptyString
  | String c r => String (lower_char c) (lower r)
  end.

(** [s.replace(old, new)] for a one-character [old], the only use in the
    notebook ([replace(" ", "_")]). *)
Fixpoint replace_char (old : ascii) (new : string) (s : string) : string :=
  match s with
  | EmptyString => EmptyString
  | String c r =>
      if Ascii.eqb c old then new +:+ replace_char old new r
      else String c (replace_char old new r)
  end.

(** [sep.join(parts)] *)
Fixpoint join (sep : string) (parts : list string) : string :=
  match parts with
  | [] => ""
  | [p] => p
  | p :: ps => p +:+ sep +:+ join sep ps
  end.

(** [str(n)] for a non-negative integer. *)
Definition of_nat (n : nat) : string :=
  NilZero.string_of_uint (Nat.to_uint n).

End PyStr.

(** ** Exceptions and results *)

(** The Python exceptions the modelled cells can raise. [InvalidArgument]
    is the error the specification gives to malformed arguments of the
    store; [Remote] stands for whatever else a remote collaborator raises
    (service, quota, not-found ...), named by its class. [NotModelled] marks replacement-field syntax of
    [str.format] that this development does not interpret (conversions,
    format specs, attribute and index access); the notebook's template has
    none. *)
Inductive exn : Type :=
| KeyError (key : string)
| ValueError
| IndexError
| EOFError
| InvalidArgument
| Remote (cls : string)
| NotModelled.

Inductive result (A : Type) : Type :=
| Ok (a : A)
| Raise (e : exn).
Arguments Ok {A} a.
Arguments Raise {A} e.

#[global] Instance result_ret : MRet result := fun A a => Ok a.
#[global] Instance result_bind : MBind result := fun A B f r =>
  match r with
  | Ok a => f a
  | Raise e => Raise e
  end.

Definition LF : string := String (ascii_of_nat 10) EmptyString.

(** ** [str.format] with keyword arguments *)

Module PyFormat.

Definition is_digit (c : ascii) : bool :=
  let n := N_of_ascii c in ((48 <=? n) && (n <=? 57))%N.

Fixpoint all_digits (s : string) : bool :=
  match s with
  | EmptyString => true
  | String c r => is_digit c && all_digits r
  end.

(** Characters that start a conversion, a format spec, an attribute or an
    index inside a replacement field. *)
Definition special (c : ascii) : bool :=
  (Ascii.eqb c "!" || Ascii.eqb c ":" || Ascii.eqb c "." || Ascii.eqb c "[")%char.

(** Value of the field [name]: an empty or numeric name is positional, and
    no positional argument is ever passed; any other name is a keyword. *)
Definition get_field (kwargs : gmap string string) (name : string) : result string :=
  if all_digits name then Raise IndexError
  else match kwargs !! name with
       | Some v => Ok v
       | None => Raise (KeyError name)
       end.

Definition emit (lit : string) (rest : result string) : result string :=
  r ← rest; Ok (lit +:+ r).

(** One left-to-right pass over the template. [field] is [None] in
    literal text and [Some name] inside a replacement field whose name
    read so far is [name]. Doubled braces are literal braces; a value
    that is substituted is never scanned again. *)
Fixpoint vformat (kwargs : gmap string string) (s : string)
    (field : option string) : result string :=
  match s with
  | EmptyString =>
      match field with
      | None => Ok ""
      | Some _ => Raise ValueError
      end
  | String c r =>
      match field with
      | None =>
          if Ascii.eqb c "{" then
            match r with
            | String c' r' =>
                if Ascii.eqb c' "{" then emit "{" (vformat kwargs r' None)
                else vformat kwargs r (Some "")
            | EmptyString => Raise ValueError
            end
          else if Ascii.eqb c "}" then
            match r with
            | String c' r' =>
                if Ascii.eqb c' "}" then emit "}" (vformat kwargs r' None)
                else Raise ValueError
            | EmptyString => Raise ValueError
            end
          else emit (String c "") (vformat kwargs r None)
      | Some name =>
          if Ascii.eqb c "}" then
            v ← get_field kwargs name; emit v (vformat kwargs r None)
          else if Ascii.eqb c "{" then Raise ValueError
          else if special c then Raise NotModelled
          else vformat kwargs r (Some (name +:+ String c ""))
      end
  end.

(** [template.format] called with the keyword arguments [kwargs]. *)
Definition format (template : string) (kwargs : gmap string string) : result string :=
  vformat kwargs template None.

End PyFormat.

(** ** Documents and dataset entries *)

(** A LangChain [Document]: the stored text and its metadata dictionary. *)
Record Document : Type := {
  page_content : string;
  metadata : gmap string string
}.

(** A row of the [datastax/entomology] dataset. *)
Record Entry : Type := {
  name : string;
  order : string;
  description : string
}.

(** ** Preparing the dataset for insertion *)

Section Ingestion.

Variable sample_dataset : list Entry.

(** [texts = [entry["description"] for entry in sample_dataset]] *)
Definition texts : list string := map description sample_dataset.

(** [metadatas = [{"name": ..., "order": ...} for entry in sample_dataset]] *)
Definition metadatas : list (gmap string string) :=
  map (fun entry => {[ "name" := name entry; "order" := order entry ]})
      sample_dataset.

(** [ids = [entry["name"].lower().replace(" ", "_") for entry in sample_dataset]] *)
Definition ids : list string :=
  map (fun entry => PyStr.replace_char " " "_" (PyStr.lower (name entry)))
      sample_dataset.

End Ingestion.

(** ** The vector store collection *)

Section Collection.

(** Embedding vectors are opaque here; [embed] is the embedding client,
    which either answers with a vector or raises. *)
Context {Vec : Type}.
Variable embed : string -> result Vec.

Record StoredRecord : Type := {
  rec_text : string;
  rec_metadata : gmap string string;
  rec_vector : Vec
}.

(** Modelled from the spec: the store's [upsert] is a call into the Astra DB
    client library, whose code is not part of the notebook. Following
    section 4.3 of the specification, each record gets its vector from the
    embedding client and is stored under its id, overwriting any record
    already there; a record whose embedding fails is left out and the
    failure is reported for its id. *)
Fixpoint upsert (records : list (string * (string * gmap string string)))
    (c : gmap string StoredRecord)
    : gmap string StoredRecord * list (string * result unit) :=
  match records with
  | [] => (c, [])
  | (id, (text, md)) :: rest =>
      match embed text with
      | Ok v =>
          let '(c', report) :=
            upsert rest (<[ id := {| rec_text := text; rec_metadata := md;
                                     rec_vector := v |} ]> c) in
          (c', (id, Ok tt) :: report)
      | Raise e =>
          let '(c', report) := upsert rest c in
          (c', (id, Raise e) :: report)
      end
  end.

(** Modelled from the spec: [add_texts(texts, metadatas, ids)] of the
    LangChain store, as an [upsert] of the three lists taken in parallel;
    lists of different lengths are an invalid argument (section 7). *)
Definition add_texts (texts : list string) (metadatas : list (gmap string string))
    (ids : list string) (c : gmap string StoredRecord)
    : result (gmap string StoredRecord * list (string * result unit)) :=
  if (length texts =? length ids)%nat && (length metadatas =? length ids)%nat
  then Ok (upsert (zip ids (zip texts metadatas)) c)
  else Raise InvalidArgument.

(** Running the insertion cell of the notebook on a dataset. *)
Definition ingest (sample_dataset : list Entry) (c : gmap string StoredRecord)
    : result (gmap string StoredRecord * list (string * result unit)) :=
  add_texts (texts sample_dataset) (metadatas sample_dataset)
            (ids sample_dataset) c.

End Collection.

(** ** The prompt *)

Definition PROMPT_TEMPLATE : string := "
<s>[INST] <<SYS>>
You are an expert entomologist tasked with helping specimen identification on the field.
You are given relevant excerpts from an invertebrate textbook along with my field observation.
Your task is to compare my observation with the textbook excerpts and come to an identification,
explaining why you came to that conclusion and giving the degree of certainity.
Only use the information provided in the user observation to come to your conclusion!
Be sure to provide, in your verdict, the species' Order together with the full Latin name.
Keep it short and informal, not like a letter, do not start with 'Dear User' or similar,
do not sign your communication.

TEXTBOOK CANDIDATE MATCHES:
{candidates}

<</SYS>>

Here is my observation:
{observation}

Please assist me in the identification. [/INST]
".

(** [d[key]] on a dictionary. *)
Definition getitem (d : gmap string string) (key : string) : result string :=
  match d !! key with
  | Some v => Ok v
  | None => Raise (KeyError key)
  end.

(** The f-string of [describe_candidates] for the match at index [i]. *)
Definition candidate_block (i : nat) (doc : Document) : result string :=
  n ← getitem (metadata doc) "name";
  o ← getitem (metadata doc) "order";
  Ok ("Candidate species " +:+ PyStr.of_nat (i + 1) +:+ ": '" +:+ n
      +:+ "' (order: " +:+ o +:+ ")" +:+ LF
      +:+ "Description: " +:+ page_content doc +:+ LF).

(** The list comprehension over [enumerate(matches)], counting from [i]. *)
Fixpoint candidate_blocks (i : nat) (matches : list Document) : result (list string) :=
  match matches with
  | [] => Ok []
  | doc :: rest =>
      b ← candidate_block i doc;
      bs ← candidate_blocks (S i) rest;
      Ok (b :: bs)
  end.

Definition describe_candidates (matches : list Document) : result string :=
  blocks ← candidate_blocks 0 matches;
  Ok (PyStr.join LF blocks).

Definition format_prompt (observation candidates : string) : result string :=
  PyFormat.format PROMPT_TEMPLATE
    {[ "observation" := observation; "candidates" := candidates ]}.

(** The sampling parameters the [SagemakerEndpoint] object is built with,
    each value kept as the literal of the source. *)
Definition model_kwargs : list (string * string) :=
  [ ("max_new_tokens", "3072"); ("top_p", "0.4"); ("temperature", "0.001") ].

(** ** The pipeline and its collaborators *)

(** A call made to a remote collaborator. *)
Inductive event : Type :=
| EvSearch (query : string) (k : Z) (filter : gmap string string)
| EvGenerate (prompt : string) (parameters : list (string * string)).

Definition is_search (ev : event) : bool :=
  match ev with EvSearch _ _ _ => true | EvGenerate _ _ => false end.

Definition is_generate (ev : event) : bool :=
  match ev with EvSearch _ _ _ => false | EvGenerate _ _ => true end.

Section Pipeline.

(** State of the remote services (the collection, the model endpoint). *)
Context {St : Type}.

(** [astra_v_store.similarity_search(query, k=k, filter=md)] *)
Variable similarity_search :
  string -> Z -> gmap string string -> St -> result (list Document) * St.

(** The generation endpoint behind [llm.invoke]: it receives the prompt
    and the sampling parameters. *)
Variable generate :
  string -> list (string * string) -> St -> result string * St.

(** What a cell can touch: the remote services, the log of the calls made
    to them, the lines still to be typed and what was printed. *)
Record World : Type := {
  remote : St;
  calls : list event;
  stdin : list string;
  stdout : list string
}.

Definition M (A : Type) : Type := World -> result A * World.

Definition ret {A} (a : A) : M A := fun w => (Ok a, w).

Definition bind {A B} (m : M A) (f : A -> M B) : M B :=
  fun w =>
    match m w with
    | (Ok a, w') => f a w'
    | (Raise e, w') => (Raise e, w')
    end.

(** A computation that touches nothing but may raise. *)
Definition lift {A} (r : result A) : M A := fun w => (r, w).

Notation "x <- m ;; k" := (bind m (fun x => k))
  (at level 100, m at next level, right associativity).
Notation "m ;;; k" := (bind m (fun _ => k))
  (at level 100, right associativity).

Definition store_search (query : string) (k : Z) (filter : gmap string string)
    : M (list Document) :=
  fun w =>
    let '(r, st) := similarity_search query k filter (remote w) in
    (r, {| remote := st;
           calls := calls w ++ [EvSearch query k filter];
           stdin := stdin w; stdout := stdout w |}).

(** [llm.invoke(prompt)] *)
Definition llm_invoke (prompt : string) : M string :=
  fun w =>
    let '(r, st) := generate prompt model_kwargs (remote w) in
    (r, {| remote := st;
           calls := calls w ++ [EvGenerate prompt model_kwargs];
           stdin := stdin w; stdout := stdout w |}).

(** [print(s)] *)
Definition print (s : string) : M unit :=
  fun w =>
    (Ok tt, {| remote := remote w; calls := calls w; stdin := stdin w;
               stdout := stdout w ++ [s] |}).

(** [input(prompt)]: shows the prompt and reads one line; end of input
    raises [EOFError]. *)
Definition input (prompt : string) : M string :=
  fun w =>
    let out := stdout w ++ [prompt] in
    match stdin w with
    | [] => (Raise EOFError,
             {| remote := remote w; calls := calls w; stdin := [];
                stdout := out |})
    | line :: rest =>
        (Ok line,
         {| remote := remote w; calls := calls w; stdin := rest;
            stdout := out |})
    end.

(** [def find_similar_entries(observation, k=3, order=None)]: an argument
    left out is [None] here. *)
Definition find_similar_entries (observation : string) (k : option Z)
    (order : option string) : M (list Document) :=
  let k := default 3%Z k in
  let md : gmap string string :=
    match order with
    | Some o => if PyStr.truthy o then {[ "order" := o ]} else ∅
    | None => ∅
    end in
  documents <- store_search observation k md ;;
  ret documents.

(** [def identify_and_suggest(observation, order=None)] *)
Definition identify_and_suggest (observation : string) (order : option string)
    : M string :=
  matches <- find_similar_entries observation (Some 3%Z) order ;;
  candidates_text <- lift (describe_candidates matches) ;;
  prompt <- lift (format_prompt observation candidates_text) ;;
  generated <- llm_invoke prompt ;;
  ret (PyStr.strip generated).

(** One turn of the [while True] loop of the last cell: [None] when the
    loop goes on, [Some tt] when it reached [break]. *)
Definition app_turn : M (option unit) :=
  line <- input (LF +:+ "=============================" +:+ LF
                 +:+ "Enter your field observation: ") ;;
  let observation := PyStr.strip line in
  if PyStr.truthy observation then
    print "-----------------------------" ;;;
    result <- identify_and_suggest observation None ;;
    print ("Result ==> " +:+ result) ;;;
    ret None
  else
    print "(no input)" ;;;
    ret (Some tt).

(** The loop, unrolled at most [fuel] times; [None] when the fuel runs
    out before the loop ends. *)
Fixpoint app_loop (fuel : nat) (w : World) : option (result unit * World) :=
  match fuel with
  | O => None
  | S fuel' =>
      match app_turn w with
      | (Ok None, w') => app_loop fuel' w'
      | (Ok (Some tt), w') => Some (Ok tt, w')
      | (Raise e, w') => Some (Raise e, w')
      end
  end.

(** The last cell: the loop, then the farewell. *)
Definition app (fuel : nat) (w : World) : option (result unit * World) :=
  match app_loop fuel w with
  | Some (Ok tt, w') => Some (print (LF +:+ "========" +:+ LF +:+ "Goodbye.") w')
  | other => other
  end.

End Pipeline.

(** ** The pipeline as the specification words it *)

Module Spec.

(** The three literal parts of the prompt, around the two placeholders. *)
Definition prompt_head : string := "
<s>[INST] <<SYS>>
You are an expert entomologist tasked with helping specimen identification on the field.
You are given relevant excerpts from an invertebrate textbook along with my field observation.
Your task is to compare my observation with the textbook excerpts and come to an identification,
explaining why you came to that conclusion and giving the degree of certainity.
Only use the information provided in the user observation to come to your conclusion!
Be sure to provide, in your verdict, the species' Order together with the full Latin name.
Keep it short and informal, not like a letter, do not start with 'Dear User' or similar,
do not sign your communication.

TEXTBOOK CANDIDATE MATCHES:
".

Definition prompt_middle : string := "

<</SYS>>

Here is my observation:
".

Definition prompt_tail : string := "

Please assist me in the identification. [/INST]
".

(** Pure interpolation: the two values are pasted between the literal
    parts, whatever they contain. *)
Definition render_prompt (observation candidates : string) : string :=
  prompt_head +:+ candidates +:+ prompt_middle +:+ observation +:+ prompt_tail.

(** The block of one candidate exactly as the specification writes it:
    two lines, no newline after the description. *)
Definition claimed_block (i : nat) (n o t : string) : string :=
  "Candidate species " +:+ PyStr.of_nat i +:+ ": '" +:+ n
  +:+ "' (order: " +:+ o +:+ ")" +:+ LF +:+ "Description: " +:+ t.

(** The block with the newline that closes it. *)
Definition closed_block (i : nat) (n o t : string) : string :=
  claimed_block i n o t +:+ LF.

(** Serializing one match: its number counts from one; a missing
    metadata key is a [KeyError], ["name"] being looked up first. *)
Definition serialize_match (i : nat) (doc : Document) : result string :=
  match metadata doc !! "name", metadata doc !! "order" with
  | Some n, Some o => Ok (closed_block (S i) n o (page_content doc))
  | None, _ => Raise (KeyError "name")
  | Some _, None => Raise (KeyError "order")
  end.

(** All the blocks in order, or the first error met. *)
Fixpoint collect (rs : list (result string)) : result (list string) :=
  match rs with
  | [] => Ok []
  | Ok b :: rest =>
      match collect rest with
      | Ok bs => Ok (b :: bs)
      | Raise e => Raise e
      end
  | Raise e :: _ => Raise e
  end.

Definition serialize_matches (matches : list Document) : result string :=
  match collect (imap serialize_match matches) with
  | Ok blocks => Ok (PyStr.join LF blocks)
  | Raise e => Raise e
  end.

(** The id of a record as the specification derives it from the name:
    one pass, a space becoming an underscore and any other character
    its lowercase. *)
Fixpoint normalized (n : string) : string :=
  match n with
  | EmptyString => EmptyString
  | String c r =>
      if Ascii.eqb c " " then String "_" (normalized r)
      else String (PyStr.lower_char c) (normalized r)
  end.

(** The metadata filter of a retrieval: an exact match on ["order"] for a
    non-empty order, no restriction otherwise. *)
Definition order_filter (order : option string) : gmap string string :=
  match order with
  | Some (String c s) => {[ "order" := String c s ]}
  | Some EmptyString | None => ∅
  end.

(** Both metadata keys the serialization reads are present. *)
Definition has_keys (doc : Document) : bool :=
  bool_decide (is_Some (metadata doc !! "name"))
  && bool_decide (is_Some (metadata doc !! "order")).

(** A line the input loop takes as the end of the session. *)
Definition blank (line : string) : bool := negb (PyStr.truthy (PyStr.strip line)).

Section Answer.

Context {St : Type}.
Variable similarity_search :
  string -> Z -> gmap string string -> St -> result (list Document) * St.
Variable generate :
  string -> list (string * string) -> St -> result string * St.

(** One search, recorded. *)
Definition searched (observation : string) (k : Z) (md : gmap string string)
    (w : World) : result (list Document) * World :=
  (fst (similarity_search observation k md (remote w)),
   {| remote := snd (similarity_search observation k md (remote w));
      calls := calls w ++ [EvSearch observation k md];
      stdin := stdin w; stdout := stdout w |}).

(** One generation, recorded. *)
Definition generated (prompt : string) (w : World) : result string * World :=
  (fst (generate prompt model_kwargs (remote w)),
   {| remote := snd (generate prompt model_kwargs (remote w));
      calls := calls w ++ [EvGenerate prompt model_kwargs];
      stdin := stdin w; stdout := stdout w |}).

(** Retrieve three matches, serialize them, render the prompt, generate,
    trim; the first failure ends the chain with its error. *)
Definition answer (observation : string) (order : option string)
    (w : World) : result string * World :=
  match searched observation 3 (order_filter order) w with
  | (Raise e, w1) => (Raise e, w1)
  | (Ok matches, w1) =>
      match serialize_matches matches with
      | Raise e => (Raise e, w1)
      | Ok candidates =>
          match generated (render_prompt observation candidates) w1 with
          | (Raise e, w2) => (Raise e, w2)
          | (Ok text, w2) => (Ok (PyStr.strip text), w2)
          end
      end
  end.

End Answer.

End Spec.

(** ** A small store and model to run the cells on *)

Module Demo.

Definition mantis : Document :=
  {| page_content := "Green, with raptorial forelegs.";
     metadata := {[ "name" := "Mantis religiosa"; "order" := "Mantodea" ]} |}.

Definition darter : Document :=
  {| page_content := "Slender, with two pairs of clear wings.";
     metadata := {[ "name" := "Sympetrum striolatum"; "order" := "Odonata" ]} |}.

(** A match that lost its ["order"] entry. *)
Definition nameless_order : Document :=
  {| page_content := "Brown."; metadata := {[ "name" := "Blatta orientalis" ]} |}.

Definition passes (md : gmap string string) (doc : Document) : bool :=
  match md !! "order" with
  | Some o => bool_decide (metadata doc !! "order" = Some o)
  | None => true
  end.

(** A store over a fixed list of documents: filter, then the first [k]. *)
Definition store (docs : list Document) (query : string) (k : Z)
    (md : gmap string string) (st : unit) : result (list Document) * unit :=
  (Ok (take (Z.to_nat k) (List.filter (passes md) docs)), st).

Definition store_down (query : string) (k : Z) (md : gmap string string)
    (st : unit) : result (list Document) * unit :=
  (Raise (Remote "ServiceError"), st).

(** A model that always answers [text]. *)
Definition llm (text : string) (prompt : string)
    (parameters : list (string * string)) (st : unit) : result string * unit :=
  (Ok text, st).

Definition llm_down (prompt : string) (parameters : list (string * string))
    (st : unit) : result string * unit :=
  (Raise (Remote "QuotaError"), st).

Definition world (lines : list string) : World :=
  {| remote := tt; calls := []; stdin := lines; stdout := [] |}.

Definition dataset : list Entry :=
  [ {| name := "Mantis religiosa"; order := "Mantodea";
       description := "Green, with raptorial forelegs." |};
    {| name := "Sympetrum striolatum"; order := "Odonata";
       description := "Slender, with two pairs of clear wings." |};
    {| name := "mantis religiosa"; order := "Mantodea";
       description := "A second sheet on the same species." |} ].

(** An embedding client whose vector is the length of the text. *)
Definition embed (text : string) : result nat := Ok (String.length text).

End Demo.

(** ** Predicates on strings used in the statements *)

(** Every character is white space. *)
Fixpoint all_space (s : string) : bool :=
  match s with
  | EmptyString => true
  | String c r => PyStr.isspace c && all_space r
  end.

(** A replacement-field name made of ordinary characters. *)
Fixpoint plain (s : string) : bool :=
  match s with
  | EmptyString => true
  | String c r =>
      negb (Ascii.eqb c "{") && negb (Ascii.eqb c "}") && negb (PyFormat.special c)
      && plain r
  end.

(** Literal template text: no brace in it. *)
Fixpoint no_brace (s : string) : bool :=
  match s with
  | EmptyString => true
  | String c r => negb (Ascii.eqb c "{") && negb (Ascii.eqb c "}") && no_brace r
  end.

(** ** More of the notebook: slices, the dataset preview, JSON bodies *)

Module PySeq.

(** [s[:n]], the first [n] characters, or all of [s] when it is shorter. *)
Fixpoint prefix (n : nat) (s : string) : string :=
  match n, s with
  | S n', String c r => String c (prefix n' r)
  | _, _ => EmptyString
  end.

(** [c * n] for a one-character string. *)
Fixpoint repeat (c : ascii) (n : nat) : string :=
  match n with
  | O => EmptyString
  | S n' => String c (repeat c n')
  end.

End PySeq.

(** [def _shorten(dct)]: the dictionary is given by its items, in order; the
    comprehension keeps every key and cuts the long values. *)
Definition _shorten (dct : list (string * string)) : list (string * string) :=
  map (fun '(k, v) =>
         (k, if (String.length v <? 40)%nat then v
             else PySeq.prefix 40 v +:+ "..."))
      dct.

Module PyJson.

(** A value handed to [json.dumps] or returned by [json.loads]. A
    dictionary is the list of its items in insertion order; a float is
    kept as the text [float.__repr__] gives for it. *)
#[warnings="-register-all"] Inductive json : Type :=
| JNull
| JBool (b : bool)
| JInt (n : Z)
| JFloat (repr : string)
| JStr (s : string)
| JList (items : list json)
| JDict (items : list (string * json)).

(** The double quote. *)
Definition dq : ascii := "034"%char.

Definition hex_digit (n : N) : ascii :=
  match n with
  | 0%N => "0" | 1%N => "1" | 2%N => "2" | 3%N => "3" | 4%N => "4"
  | 5%N => "5" | 6%N => "6" | 7%N => "7" | 8%N => "8" | 9%N => "9"
  | 10%N => "a" | 11%N => "b" | 12%N => "c" | 13%N => "d" | 14%N => "e"
  | _ => "f"
  end%char.

(** How [json.dumps] (with its default [ensure_ascii=True]) writes one
    character of a string: the quote and the backslash get a backslash,
    the five usual controls their letter, printable ASCII stays, anything
    else becomes a [\u] escape with four lowercase hex digits. *)
Definition escape_char (c : ascii) : string :=
  let n := N_of_ascii c in
  if Ascii.eqb c dq then String "\" (String dq "")
  else if Ascii.eqb c "\" then "\\"
  else if (n =? 8)%N then "\b"
  else if (n =? 12)%N then "\f"
  else if (n =? 10)%N then "\n"
  else if (n =? 13)%N then "\r"
  else if (n =? 9)%N then "\t"
  else if ((32 <=? n) && (n <=? 126))%N then String c ""
  else "\u00" +:+ String (hex_digit (n / 16)) (String (hex_digit (n mod 16)) "").

Fixpoint escape (s : string) : string :=
  match s with
  | EmptyString => EmptyString
  | String c r => escape_char c +:+ escape r
  end.

(** A string as a JSON string literal. *)
Definition quote (s : string) : string :=
  String dq (escape s +:+ String dq "").

(** [str(n)] for an integer. *)
Definition of_Z (n : Z) : string := NilZero.string_of_int (Z.to_int n).

(** [json.dumps(v)] with the default separators. *)
Fixpoint dumps (v : json) : string :=
  match v with
  | JNull => "null"
  | JBool true => "true"
  | JBool false => "false"
  | JInt n => of_Z n
  | JFloat repr => repr
  | JStr s => quote s
  | JList items => "[" +:+ PyStr.join ", " (map dumps items) +:+ "]"
  | JDict items =>
      "{" +:+ PyStr.join ", "
                (map (fun '(k, x) => quote k +:+ ": " +:+ dumps x) items)
      +:+ "}"
  end.

(** [d.get(k)] on the items of a dictionary. *)
Fixpoint dict_get {A : Type} (d : list (string * A)) (k : string) : option A :=
  match d with
  | [] => None
  | (k', x) :: rest => if String.eqb k' k then Some x else dict_get rest k
  end.

(** [d[k] = x]: the value of an existing key is replaced where it stands,
    a new key goes to the end. *)
Fixpoint dict_set {A : Type} (d : list (string * A)) (k : string) (x : A)
    : list (string * A) :=
  match d with
  | [] => [(k, x)]
  | (k', x') :: rest =>
      if String.eqb k' k then (k', x) :: rest
      else (k', x') :: dict_set rest k x
  end.

(** The dictionary display [{..., **extra}]: the items of [extra] are set
    one after the other. *)
Definition dict_merge {A : Type} (base extra : list (string * A))
    : list (string * A) :=
  fold_left (fun d kv => dict_set d (fst kv) (snd kv)) extra base.

(** [s.encode("utf-8")] for code points below 256: one byte below 128,
    two bytes from there on. *)
Definition utf8_encode_char (c : ascii) : string :=
  let n := N_of_ascii c in
  if (n <? 128)%N then String c ""
  else String (ascii_of_N (192 + n / 64))
         (String (ascii_of_N (128 + n mod 64)) "").

Fixpoint utf8_encode (s : string) : string :=
  match s with
  | EmptyString => EmptyString
  | String c r => utf8_encode_char c +:+ utf8_encode r
  end.

(** What a subscript on a decoded response can raise, next to an error
    [e] of the decoding itself. *)
Inductive lookup_error (E : Type) : Type :=
| NoKey (key : string)
| NoIntKey (key : Z)
| NoIndex
| NotSubscriptable
| Undecoded (e : E).
Arguments NoKey {E} key.
Arguments NoIntKey {E} key.
Arguments NoIndex {E}.
Arguments NotSubscriptable {E}.
Arguments Undecoded {E} e.

(** [v[0]]: the first item of a list, the first character of a string; a
    dictionary has string keys only, so [0] is a missing key; nothing else
    can be subscripted. *)
Definition getitem0 {E : Type} (v : json) : lookup_error E + json :=
  match v with
  | JList (x :: _) => inr x
  | JList [] => inl NoIndex
  | JStr (String c _) => inr (JStr (String c ""))
  | JStr EmptyString => inl NoIndex
  | JDict _ => inl (NoIntKey 0)
  | JNull | JBool _ | JInt _ | JFloat _ => inl NotSubscriptable
  end.

(** [v[key]] for a string [key]: only a dictionary takes it. *)
Definition getitem_key {E : Type} (v : json) (key : string) : lookup_error E + json :=
  match v with
  | JDict items =>
      match dict_get items key with
      | Some x => inr x
      | None => inl (NoKey key)
      end
  | _ => inl NotSubscriptable
  end.

End PyJson.

(** The content handler of the language model. *)
Module ContentHandler.

(** [def transform_input(self, prompt, model_kwargs)] *)
Definition transform_input (prompt : string)
    (model_kwargs : list (string * PyJson.json)) : string :=
  let input_str :=
    PyJson.dumps (PyJson.JDict [ ("inputs", PyJson.JStr prompt);
                                 ("parameters", PyJson.JDict model_kwargs) ]) in
  PyJson.utf8_encode input_str.

(** [def transform_output(self, output)]; [read_json] stands for
    [json.loads(output.read().decode("utf-8"))]. *)
Definition transform_output {E : Type} (read_json : string -> E + PyJson.json)
    (output : string) : PyJson.lookup_error E + PyJson.json :=
  match read_json output with
  | inl e => inl (PyJson.Undecoded e)
  | inr response_json =>
      match PyJson.getitem0 response_json with
      | inl e => inl e
      | inr first => PyJson.getitem_key first "generated_text"
      end
  end.

End ContentHandler.

(** The content handler of the embedding model. *)
Module SageMakerGPTJ6BContentHandler.

(** [def transform_input(self, inputs, model_kwargs)] *)
Definition transform_input (inputs : list string)
    (model_kwargs : list (string * PyJson.json)) : string :=
  let input_encoded :=
    PyJson.utf8_encode
      (PyJson.dumps
         (PyJson.JDict
            (PyJson.dict_merge
               [ ("text_inputs", PyJson.JList (map PyJson.JStr inputs)) ]
               model_kwargs))) in
  input_encoded.

(** [def transform_output(self, output)] *)
Definition transform_output {E : Type} (read_json : string -> E + PyJson.json)
    (output : string) : PyJson.lookup_error E + PyJson.json :=
  match read_json output with
  | inl e => inl (PyJson.Undecoded e)
  | inr response_json => PyJson.getitem_key response_json "embedding"
  end.

End SageMakerGPTJ6BContentHandler.

(** The sampling parameters of the notebook as a dictionary of JSON
    values. *)
Definition llm_model_kwargs : list (string * PyJson.json) :=
  [ ("max_new_tokens", PyJson.JInt 3072); ("top_p", PyJson.JFloat "0.4");
    ("temperature", PyJson.JFloat "0.001") ].

(** ** The cells that ask for an endpoint name *)

Section EndpointCells.

Context {St : Type}.

Notation "x <- m ;; k" := (bind (St := St) m (fun x => k))
  (at level 100, m at next level, right associativity).
Notation "m ;;; k" := (bind (St := St) m (fun _ => k))
  (at level 100, right associativity).

(** The cell of the embedding endpoint: it gives the name typed, trimmed,
    and [emb_endpoint_supplied]. *)
Definition emb_endpoint_cell : M (St := St) (string * bool) :=
  line <- input "Enter the *embedding model* endpoint name if already deployed (leave empty if deploying with SDK):" ;;
  let emb_endpoint_name := PyStr.strip line in
  if String.eqb emb_endpoint_name "" then
    print (LF +:+ PySeq.repeat "*" 101) ;;;
    print "*** INFO: the embedding model will be deployed programmatically, as no endpoint name was provided. **" ;;;
    print "***       Re-run this cell and supply the endpoint name if this is incorrect.                      **" ;;;
    print (PySeq.repeat "*" 101) ;;;
    ret (emb_endpoint_name, false)
  else
    ret (emb_endpoint_name, true).

(** The cell of the model endpoint: the name and [llm_endpoint_supplied]. *)
Definition llm_endpoint_cell : M (St := St) (string * bool) :=
  line <- input "Enter the *LLM* endpoint name if already deployed (leave empty if deploying with SDK):" ;;
  let llm_endpoint_name := PyStr.strip line in
  if String.eqb llm_endpoint_name "" then
    print (LF +:+ PySeq.repeat "*" 89) ;;;
    print "*** INFO: the LLM will be deployed programmatically, as no endpoint name was provided. **" ;;;
    print "***       Re-run this cell and supply the endpoint name if this is incorrect.          **" ;;;
    print (PySeq.repeat "*" 89) ;;;
    ret (llm_endpoint_name, false)
  else
    ret (llm_endpoint_name, true).

End EndpointCells.

(** ** Predicates and readers used in the statements below *)

(** A character [json.dumps] may leave in its output: printable ASCII. *)
Definition printable (c : ascii) : bool :=
  let n := N_of_ascii c in ((32 <=? n) && (n <=? 126))%N.

Fixpoint all_printable (s : string) : bool :=
  match s with
  | EmptyString => true
  | String c r => printable c && all_printable r
  end.

(** Every float of the value has a printable text. *)
Fixpoint floats_printable (v : PyJson.json) : bool :=
  match v with
  | PyJson.JFloat repr => all_printable repr
  | PyJson.JList items => forallb floats_printable items
  | PyJson.JDict items => forallb (fun '(_, x) => floats_printable x) items
  | _ => true
  end.

(** Where a reader of a JSON string literal stands: in plain text, after
    a backslash, or inside a [\u] escape with [todo] digits to go. *)
Inductive reading : Type :=
| Plain
| Escaped
| Hex (todo : nat) (acc : N).

Definition hex_value (c : ascii) : N :=
  let n := N_of_ascii c in
  if ((48 <=? n) && (n <=? 57))%N then (n - 48)%N
  else if ((97 <=? n) && (n <=? 102))%N then (n - 87)%N
  else 0%N.

Definition keep (c : ascii) (r : option (string * string)) : option (string * string) :=
  match r with
  | Some (s, rest) => Some (String c s, rest)
  | None => None
  end.

(** Reads the characters of a string literal up to its closing quote and
    gives them back decoded, with what follows the quote. *)
Fixpoint read_literal (st : reading) (s : string) : option (string * string) :=
  match s with
  | EmptyString => None
  | String c r =>
      match st with
      | Plain =>
          if Ascii.eqb c PyJson.dq then Some ("", r)
          else if Ascii.eqb c "\" then read_literal Escaped r
          else keep c (read_literal Plain r)
      | Escaped =>
          if Ascii.eqb c "u" then read_literal (Hex 4 0) r
          else if Ascii.eqb c "b" then keep (ascii_of_N 8) (read_literal Plain r)
          else if Ascii.eqb c "f" then keep (ascii_of_N 12) (read_literal Plain r)
          else if Ascii.eqb c "n" then keep (ascii_of_N 10) (read_literal Plain r)
          else if Ascii.eqb c "r" then keep (ascii_of_N 13) (read_literal Plain r)
          else if Ascii.eqb c "t" then keep (ascii_of_N 9) (read_literal Plain r)
          else keep c (read_literal Plain r)
      | Hex todo acc =>
          let acc' := (16 * acc + hex_value c)%N in
          match todo with
          | S (S todo') => read_literal (Hex (S todo') acc') r
          | _ => keep (ascii_of_N acc') (read_literal Plain r)
          end
      end
  end.

(** The texts the input loop prints: the prompt of [input], the rule
    before an answer, and the farewell after the loop. *)
Definition loop_prompt : string :=
  LF +:+ "=============================" +:+ LF
  +:+ "Enter your field observation: ".

Definition loop_rule : string := "-----------------------------".

Definition farewell : string := LF +:+ "========" +:+ LF +:+ "Goodbye.".

(** The world a run ended in, or the one it started from when the run
    did not end. *)
Definition world_after {St : Type} (w : @World St)
    (run : option (result unit * @World St)) : @World St :=
  match run with
  | Some (_, w') => w'
  | None => w
  end.

(** What [_shorten] makes of one value. *)
Definition shorten_value (v : string) : string :=
  if (String.length v <? 40)%nat then v else PySeq.prefix 40 v +:+ "...".

(** No capital letter (a character [str.lower] would change) and no
    space in the string. *)
Fixpoint lowered (s : string) : bool :=
  match s with
  | EmptyString => true
  | String c r =>
      Ascii.eqb (PyStr.lower_char c) c && negb (Ascii.eqb c " ") && lowered r
  end.

(** The documents the store gives back for the rows of a dataset: the
    text of a row with the metadata prepared for it. *)
Definition documents_of (sample_dataset : list Entry) : list Document :=
  zip_with (fun text md => {| page_content := text; metadata := md |})
           (texts sample_dataset) (metadatas sample_dataset).

(** ** The session of the input loop, line by line *)

Section Session.

Context {St : Type}.
Variable similarity_search :
  string -> Z -> gmap string string -> St -> result (list Document) * St.
Variable generate :
  string -> list (string * string) -> St -> result string * St.

(** The world once [unread] is what is left to type and [printed] has been
    printed. *)
Definition turned (w : @World St) (unread printed : list string) : @World St :=
  {| remote := remote w; calls := calls w; stdin := unread;
     stdout := stdout w ++ printed |}.

(** One answer per line, in order, each for the trimmed line: the prompt
    and the rule are printed, the answer is asked for and printed; the
    first answer that raises ends the session with its error, in the world
    it left. [after] is what follows [lines] on the input. *)
Fixpoint answers (lines after : list string) (w : @World St)
    : result unit * @World St :=
  match lines with
  | [] => (Ok tt, w)
  | line :: more =>
      match identify_and_suggest similarity_search generate
              (PyStr.strip line) None
              (turned w (more ++ after) [loop_prompt; loop_rule]) with
      | (Ok text, w2) =>
          answers more after (turned w2 (stdin w2) ["Result ==> " +:+ text])
      | (Raise e, w2) => (Raise e, w2)
      end
  end.

(** The whole session: the answers for [lines], then the turn that reads
    the blank line [last], prints "(no input)" and leaves [rest] unread. *)
Definition session (lines : list string) (last : string) (rest : list string)
    (w : @World St) : result unit * @World St :=
  match answers lines (last :: rest) w with
  | (Ok tt, w1) => (Ok tt, turned w1 rest [loop_prompt; "(no input)"])
  | (Raise e, w1) => (Raise e, w1)
  end.

End Session.

Module Trial.

(** A store that is down for one query and answers the others. *)
Definition store_down_for (bad : string) (docs : list Document) (query : string)
    (k : Z) (md : gmap string string) (st : unit)
    : result (list Document) * unit :=
  if String.eqb query bad then (Raise (Remote "ServiceError"), st)
  else Demo.store docs query k md st.

End Trial.

(** * Properties *)

(** ** Sanity checks of the string primitives *)

Example strip_ex : PyStr.strip "  a moth
" = "a moth".
Proof. reflexivity. Qed.

Example lower_ex : PyStr.lower "Apis Mellifera" = "apis mellifera".
Proof. reflexivity. Qed.

Example of_nat_ex : PyStr.of_nat 12 = "12".
Proof. reflexivity. Qed.

Example format_ex :
  PyFormat.format "a {x} b {{c}} {y}" {[ "x" := "{y}"; "y" := "1" ]}
  = Ok "a {y} b {c} 1".
Proof. vm_compute. reflexivity. Qed.

Example format_missing :
  PyFormat.format "a {x} }" ∅ = Raise (KeyError "x").
Proof. vm_compute. reflexivity. Qed.

Example describe_candidates_ex :
  describe_candidates [Demo.mantis; Demo.darter]
  = Ok "Candidate species 1: 'Mantis religiosa' (order: Mantodea)
Description: Green, with raptorial forelegs.

Candidate species 2: 'Sympetrum striolatum' (order: Odonata)
Description: Slender, with two pairs of clear wings.
".
Proof. vm_compute. reflexivity. Qed.

Example describe_candidates_missing_ex :
  describe_candidates [Demo.mantis; Demo.nameless_order]
  = Raise (KeyError "order").
Proof. vm_compute. reflexivity. Qed.

Example ids_ex :
  ids [ {| name := "Apis Mellifera"; order := "Hymenoptera"; description := "d" |} ]
  = [ "apis_mellifera" ].
Proof. reflexivity. Qed.

(** ** Strings *)

Lemma string_app_cons (x : ascii) (a b : string) :
  String x a +:+ b = String x (a +:+ b).
Proof. reflexivity. Qed.

Lemma string_app_assoc (a b c : string) : (a +:+ b) +:+ c = a +:+ (b +:+ c).
Proof.
  induction a as [|x a IH]; [reflexivity|].
  rewrite !string_app_cons. now rewrite IH.
Qed.

Lemma string_app_empty_r (a : string) : a +:+ "" = a.
Proof.
  induction a as [|x a IH]; [reflexivity|].
  rewrite string_app_cons. now rewrite IH.
Qed.

Lemma lstrip_empty_iff (s : string) : PyStr.lstrip s = "" <-> all_space s = true.
Proof.
  induction s as [|c r IH]; simpl; [tauto|].
  destruct (PyStr.isspace c); simpl; [exact IH | split; discriminate].
Qed.

Lemma rstrip_empty_iff (s : string) : PyStr.rstrip s = "" <-> all_space s = true.
Proof.
  induction s as [|c r IH]; simpl; [tauto|].
  destruct (PyStr.rstrip r) eqn:E.
  - destruct (PyStr.isspace c); simpl.
    + split; [intros _; now apply IH | reflexivity].
    + split; discriminate.
  - split; [discriminate|].
    intros H. apply andb_true_iff in H as [_ H].
    apply IH in H. discriminate.
Qed.

Lemma lstrip_all_space (s : string) :
  all_space (PyStr.lstrip s) = true -> all_space s = true.
Proof.
  induction s as [|c r IH]; simpl; [tauto|].
  destruct (PyStr.isspace c) eqn:E; simpl; [exact IH|].
  rewrite E. discriminate.
Qed.

(** Trimming leaves nothing exactly when every character is white space. *)
Lemma strip_empty_iff (s : string) : PyStr.strip s = "" <-> all_space s = true.
Proof.
  unfold PyStr.strip. rewrite rstrip_empty_iff. split.
  - apply lstrip_all_space.
  - intros H. apply lstrip_empty_iff in H. now rewrite H.
Qed.

Lemma truthy_false_iff (s : string) : PyStr.truthy s = false <-> s = "".
Proof. destruct s; simpl; split; congruence. Qed.

(** ** Template rendering *)

Lemma plain_cons (c : ascii) (r : string) :
  plain (String c r) = true ->
  Ascii.eqb c "{" = false /\ Ascii.eqb c "}" = false
  /\ PyFormat.special c = false /\ plain r = true.
Proof.
  simpl. rewrite !andb_true_iff, !negb_true_iff. tauto.
Qed.

Lemma emit_emit (a b : string) (r : result string) :
  PyFormat.emit a (PyFormat.emit b r) = PyFormat.emit (a +:+ b) r.
Proof.
  destruct r; [|reflexivity].
  cbv [PyFormat.emit mbind result_bind]. now rewrite string_app_assoc.
Qed.

Lemma emit_empty (r : result string) : PyFormat.emit "" r = r.
Proof. destruct r; reflexivity. Qed.

(** Literal text without braces is copied. *)
Lemma vformat_literal kwargs (s rest : string) :
  no_brace s = true ->
  PyFormat.vformat kwargs (s +:+ rest) None
  = PyFormat.emit s (PyFormat.vformat kwargs rest None).
Proof.
  induction s as [|c r IH]; intros H.
  - now rewrite emit_empty.
  - simpl in H. rewrite !andb_true_iff, !negb_true_iff in H.
    destruct H as [[H1 H2] H3].
    rewrite string_app_cons. simpl. rewrite H1, H2.
    rewrite IH by assumption. now rewrite emit_emit.
Qed.

Lemma vformat_name kwargs (s rest acc : string) :
  plain s = true ->
  PyFormat.vformat kwargs (s +:+ String "}" rest) (Some acc)
  = v ← PyFormat.get_field kwargs (acc +:+ s);
    PyFormat.emit v (PyFormat.vformat kwargs rest None).
Proof.
  revert acc. induction s as [|c r IH]; intros acc H.
  - now rewrite string_app_empty_r.
  - apply plain_cons in H as (H1 & H2 & H3 & H4).
    rewrite string_app_cons. simpl. rewrite H1, H2, H3.
    rewrite IH by assumption.
    now rewrite string_app_assoc.
Qed.

(** A replacement field with a plain, non-empty name. *)
Lemma vformat_field kwargs (c : ascii) (s rest : string) :
  plain (String c s) = true ->
  PyFormat.vformat kwargs (String "{" (String c s +:+ String "}" rest)) None
  = v ← PyFormat.get_field kwargs (String c s);
    PyFormat.emit v (PyFormat.vformat kwargs rest None).
Proof.
  intros H. pose proof (plain_cons _ _ H) as (H1 & _).
  change (PyFormat.vformat kwargs (String "{" (String c s +:+ String "}" rest)) None)
    with (if Ascii.eqb c "{"
          then PyFormat.emit "{" (PyFormat.vformat kwargs (s +:+ String "}" rest) None)
          else PyFormat.vformat kwargs (String c s +:+ String "}" rest) (Some "")).
  rewrite H1. now rewrite vformat_name.
Qed.

Lemma template_parts :
  PROMPT_TEMPLATE
  = Spec.prompt_head
    +:+ String "{" ("candidates" +:+ String "}"
      (Spec.prompt_middle
       +:+ String "{" ("observation" +:+ String "}" (Spec.prompt_tail +:+ "")))).
Proof. reflexivity. Qed.

(** [format_prompt] always renders, and what it renders is the literal
    text with the two values pasted in. *)
Lemma format_prompt_render (observation candidates : string) :
  format_prompt observation candidates
  = Ok (Spec.render_prompt observation candidates).
Proof.
  unfold format_prompt, PyFormat.format. rewrite template_parts.
  rewrite vformat_literal by reflexivity.
  rewrite vformat_field by reflexivity.
  rewrite vformat_literal by reflexivity.
  rewrite vformat_field by reflexivity.
  rewrite vformat_literal by reflexivity.
  assert (PyFormat.get_field {[ "observation" := observation;
                                "candidates" := candidates ]} "candidates"
          = Ok candidates) as ->.
  { unfold PyFormat.get_field. simpl PyFormat.all_digits.
    rewrite lookup_insert_ne by discriminate.
    now rewrite lookup_singleton_eq. }
  assert (PyFormat.get_field {[ "observation" := observation;
                                "candidates" := candidates ]} "observation"
          = Ok observation) as ->.
  { unfold PyFormat.get_field. simpl PyFormat.all_digits.
    now rewrite lookup_insert_eq. }
  unfold Spec.render_prompt. simpl.
  now rewrite !string_app_empty_r.
Qed.

(** ** Serializing the candidates *)

Lemma candidate_block_serialize (i : nat) (doc : Document) :
  candidate_block i doc = Spec.serialize_match i doc.
Proof.
  unfold candidate_block, Spec.serialize_match, getitem.
  destruct (metadata doc !! "name") as [n|]; [|reflexivity].
  destruct (metadata doc !! "order") as [o|]; [|reflexivity].
  cbv [mbind result_bind]. f_equal.
  unfold Spec.closed_block, Spec.claimed_block.
  rewrite Nat.add_1_r. now rewrite !string_app_assoc.
Qed.

Lemma candidate_blocks_collect (i : nat) (matches : list Document) :
  candidate_blocks i matches
  = Spec.collect (imap (fun j => Spec.serialize_match (i + j)) matches).
Proof.
  revert i. induction matches as [|doc rest IH]; intros i; [reflexivity|].
  simpl. rewrite candidate_block_serialize, Nat.add_0_r.
  destruct (Spec.serialize_match i doc) as [b|e]; [|reflexivity].
  cbv [mbind result_bind]. rewrite IH.
  rewrite (imap_ext (fun j => Spec.serialize_match (S i + j))
                    ((fun j => Spec.serialize_match (i + j)) ∘ S)).
  - destruct (Spec.collect _); reflexivity.
  - intros j x _. simpl. now rewrite Nat.add_succ_r.
Qed.

Lemma describe_candidates_serialize (matches : list Document) :
  describe_candidates matches = Spec.serialize_matches matches.
Proof.
  unfold describe_candidates, Spec.serialize_matches.
  rewrite candidate_blocks_collect. simpl.
  destruct (Spec.collect _); reflexivity.
Qed.

(** ** Running the pipeline *)

Section Runs.

Context {St : Type}.
Variable similarity_search :
  string -> Z -> gmap string string -> St -> result (list Document) * St.
Variable generate :
  string -> list (string * string) -> St -> result string * St.

Lemma find_similar_entries_run (observation : string) (k : Z)
    (order : option string) (w : World) :
  find_similar_entries similarity_search observation (Some k) order w
  = Spec.searched similarity_search observation k (Spec.order_filter order) w.
Proof.
  unfold find_similar_entries, Spec.searched, bind, store_search, ret.
  assert (match order with
          | Some o => if PyStr.truthy o then {[ "order" := o ]} else ∅
          | None => ∅
          end = Spec.order_filter order) as ->.
  { destruct order as [[|c s]|]; reflexivity. }
  simpl.
  destruct (similarity_search observation k (Spec.order_filter order) (remote w))
    as [[ms|e] st]; reflexivity.
Qed.

Lemma identify_and_suggest_run (observation : string) (order : option string)
    (w : World) :
  identify_and_suggest similarity_search generate observation order w
  = Spec.answer similarity_search generate observation order w.
Proof.
  unfold identify_and_suggest, Spec.answer.
  unfold bind at 1. rewrite find_similar_entries_run.
  destruct (Spec.searched _ _ _ _ _) as [[ms|e] w1]; [|reflexivity].
  unfold bind at 1. unfold lift at 1.
  rewrite describe_candidates_serialize.
  destruct (Spec.serialize_matches ms) as [c|e]; [|reflexivity].
  unfold bind at 1. unfold lift at 1. rewrite format_prompt_render.
  unfold bind, llm_invoke, Spec.generated, ret.
  destruct (generate _ _ _) as [[g|e] st]; reflexivity.
Qed.

End Runs.

Section Calls.

Context {St : Type}.
Variable similarity_search :
  string -> Z -> gmap string string -> St -> result (list Document) * St.
Variable generate :
  string -> list (string * string) -> St -> result string * St.

(** What one answer leaves behind: the input and the output untouched, one
    search for three matches, and at most one generation after it. *)
Lemma identify_and_suggest_calls (observation : string) (order : option string)
    (w : World) :
  let w' := snd (identify_and_suggest similarity_search generate
                   observation order w) in
  stdin w' = stdin w /\ stdout w' = stdout w /\
  (calls w' = calls w ++ [EvSearch observation 3 (Spec.order_filter order)]
   \/ exists candidates,
        calls w' = calls w ++
          [EvSearch observation 3 (Spec.order_filter order);
           EvGenerate (Spec.render_prompt observation candidates) model_kwargs]).
Proof.
  rewrite identify_and_suggest_run. unfold Spec.answer, Spec.searched.
  destruct (fst (similarity_search _ _ _ _)) as [ms|e]; simpl; [|tauto].
  destruct (Spec.serialize_matches ms) as [c|e]; simpl; [|tauto].
  unfold Spec.generated.
  destruct (fst (generate _ _ _)) as [g|e]; simpl;
    (split; [reflexivity | split; [reflexivity | right; exists c]]);
    now rewrite <- app_assoc.
Qed.

End Calls.

(** ** C1: the answer as a composition *)

(** C1, as stated, fails: with one match retrieved, the candidates text put
    in the prompt is the block of the specification followed by a newline,
    not the block alone. *)
Lemma identify_and_suggest_block_counterexample :
  let block := Spec.claimed_block 1 "Mantis religiosa" "Mantodea"
                 "Green, with raptorial forelegs." in
  let w' := snd (identify_and_suggest (Demo.store [Demo.mantis])
                   (Demo.llm "A mantis.") "Green insect" None (Demo.world [])) in
  calls w' = [EvSearch "Green insect" 3 ∅;
              EvGenerate (Spec.render_prompt "Green insect" (block +:+ LF))
                         model_kwargs]
  /\ calls w' <> [EvSearch "Green insect" 3 ∅;
                  EvGenerate (Spec.render_prompt "Green insect" block)
                             model_kwargs].
Proof.
  assert (E : calls (snd (identify_and_suggest (Demo.store [Demo.mantis])
                 (Demo.llm "A mantis.") "Green insect" None (Demo.world [])))
              = [EvSearch "Green insect" 3 ∅;
                 EvGenerate (Spec.render_prompt "Green insect"
                   (Spec.claimed_block 1 "Mantis religiosa" "Mantodea"
                      "Green, with raptorial forelegs." +:+ LF))
                   model_kwargs]).
  { rewrite identify_and_suggest_run. vm_compute. reflexivity. }
  cbv zeta. split; [exact E|].
  rewrite E. intros H.
  apply (f_equal (fun evs => match evs with
                             | [_; EvGenerate p _] => String.length p
                             | _ => O
                             end)) in H.
  vm_compute in H. discriminate.
Qed.

(** C1, amended: for every observation and optional order,
    [identify_and_suggest] is the composition: retrieve three matches for
    the observation, serialize match number i (counting from one) into the
    block "Candidate species i: '<name>' (order: <order>)", newline,
    "Description: <text>", newline, the blocks joined by a newline;
    substitute observation and candidates into the template by pure string
    interpolation; call the generation client on the rendered prompt; return
    the result trimmed. *)
Theorem identify_and_suggest_composition {St : Type}
    (similarity_search :
       string -> Z -> gmap string string -> St -> result (list Document) * St)
    (generate : string -> list (string * string) -> St -> result string * St)
    (observation : string) (order : option string) (w : World) :
  identify_and_suggest similarity_search generate observation order w
  = Spec.answer similarity_search generate observation order w
  /\ (forall matches, describe_candidates matches = Spec.serialize_matches matches)
  /\ (forall candidates,
        format_prompt observation candidates
        = Ok (Spec.prompt_head +:+ candidates +:+ Spec.prompt_middle
              +:+ observation +:+ Spec.prompt_tail)).
Proof.
  split; [apply identify_and_suggest_run|].
  split; [apply describe_candidates_serialize|].
  intros candidates. apply format_prompt_render.
Qed.

(** ** C2: the filter of a retrieval *)

(** C2, as stated, fails: an order argument is given, the empty string, and
    the search is made with the empty filter instead of the filter on
    ["order"]. *)
Lemma find_similar_entries_given_order_counterexample :
  find_similar_entries (Demo.store [Demo.mantis; Demo.darter])
    "Long wings" (Some 2%Z) (Some "") (Demo.world [])
  = (Ok [Demo.mantis; Demo.darter],
     {| remote := tt; calls := [EvSearch "Long wings" 2 ∅];
        stdin := []; stdout := [] |})
  /\ (∅ : gmap string string) <> {[ "order" := "" ]}.
Proof.
  split.
  - rewrite find_similar_entries_run. reflexivity.
  - intros H. apply (f_equal (fun m : gmap string string => m !! "order")) in H.
    rewrite lookup_empty, lookup_singleton_eq in H. discriminate.
Qed.

(** C2, amended: for every observation and k, [find_similar_entries] makes
    one call to the store's similarity search, with the filter
    {"order": order} when a non-empty order is given and with the empty
    filter when the order is left out or is the empty string, and returns
    the outcome of that call unchanged. *)
Theorem find_similar_entries_filter {St : Type}
    (similarity_search :
       string -> Z -> gmap string string -> St -> result (list Document) * St)
    (observation : string) (k : Z) (order : option string) (w : World) :
  let md : gmap string string :=
    match order with
    | Some (String c s) => {[ "order" := String c s ]}
    | _ => ∅
    end in
  find_similar_entries similarity_search observation (Some k) order w
  = (fst (similarity_search observation k md (remote w)),
     {| remote := snd (similarity_search observation k md (remote w));
        calls := calls w ++ [EvSearch observation k md];
        stdin := stdin w; stdout := stdout w |}).
Proof.
  cbv zeta. rewrite find_similar_entries_run. unfold Spec.searched.
  destruct order as [[|c s]|]; reflexivity.
Qed.

(** ** C9: falsy orders *)

(** C9: an empty-string order behaves as no order at all, both searching
    with the empty filter; only a non-empty order gives the filter
    {"order": order}, which does restrict the ["order"] entry. *)
Theorem find_similar_entries_falsy_order {St : Type}
    (similarity_search :
       string -> Z -> gmap string string -> St -> result (list Document) * St)
    (observation : string) (k : option Z) (w : World) :
  find_similar_entries similarity_search observation k (Some "") w
  = find_similar_entries similarity_search observation k None w
  /\ calls (snd (find_similar_entries similarity_search observation k None w))
     = calls w ++ [EvSearch observation (default 3%Z k) ∅]
  /\ forall (c : ascii) (s : string),
       calls (snd (find_similar_entries similarity_search observation k
                     (Some (String c s)) w))
       = calls w ++ [EvSearch observation (default 3%Z k)
                       {[ "order" := String c s ]}]
       /\ ({[ "order" := String c s ]} : gmap string string) !! "order"
          = Some (String c s)
       /\ (∅ : gmap string string) !! "order" = None.
Proof.
  split; [reflexivity|]. split.
  - unfold find_similar_entries, bind, store_search, ret. simpl.
    destruct (similarity_search _ _ _ _) as [[ms|e] st]; reflexivity.
  - intros c s. split; [|split].
    + unfold find_similar_entries, bind, store_search, ret. simpl.
      destruct (similarity_search _ _ _ _) as [[ms|e] st]; reflexivity.
    + apply lookup_singleton_eq.
    + apply lookup_empty.
Qed.

(** ** C4: the number of matches asked for *)

(** C4, as stated, fails: with k = 0 and with k = -1 the search is made and
    its (empty) result returned; nothing is raised. *)
Lemma find_similar_entries_nonpositive_k_counterexample :
  find_similar_entries (Demo.store [Demo.mantis; Demo.darter])
    "Long wings" (Some 0%Z) None (Demo.world [])
  = (Ok [], {| remote := tt; calls := [EvSearch "Long wings" 0 ∅];
               stdin := []; stdout := [] |})
  /\ find_similar_entries (Demo.store [Demo.mantis; Demo.darter])
       "Long wings" (Some (-1)%Z) None (Demo.world [])
     = (Ok [], {| remote := tt; calls := [EvSearch "Long wings" (-1) ∅];
                  stdin := []; stdout := [] |}).
Proof.
  split; rewrite find_similar_entries_run; reflexivity.
Qed.

(** C4, amended: [find_similar_entries] does not check k. For every
    k <= 0 it still calls the similarity search, with that k, and returns
    what the store returns, so it fails with [InvalidArgument] exactly when
    the store itself does; [identify_and_suggest] always asks for three
    matches. *)
Theorem find_similar_entries_forwards_k {St : Type}
    (similarity_search :
       string -> Z -> gmap string string -> St -> result (list Document) * St)
    (generate : string -> list (string * string) -> St -> result string * St)
    (observation : string) (k : Z) (order : option string) (w : World) :
  (k <= 0)%Z ->
  let md := Spec.order_filter order in
  let out := find_similar_entries similarity_search observation (Some k) order w in
  fst out = fst (similarity_search observation k md (remote w))
  /\ calls (snd out) = calls w ++ [EvSearch observation k md]
  /\ (fst out = Raise InvalidArgument
      <-> fst (similarity_search observation k md (remote w)) = Raise InvalidArgument)
  /\ exists later,
       calls (snd (identify_and_suggest similarity_search generate
                     observation order w))
       = calls w ++ EvSearch observation 3 md :: later.
Proof.
  intros _. cbv zeta. rewrite find_similar_entries_run. unfold Spec.searched.
  simpl. split; [reflexivity|]. split; [reflexivity|]. split; [tauto|].
  destruct (identify_and_suggest_calls similarity_search generate
              observation order w) as (_ & _ & [H | [c H]]).
  - exists []. exact H.
  - exists [EvGenerate (Spec.render_prompt observation c) model_kwargs]. exact H.
Qed.

Lemma find_similar_entries_forwards_k_witness :
  let out := find_similar_entries (Demo.store [Demo.mantis; Demo.darter])
               "Long wings" (Some 0%Z) (Some "Odonata") (Demo.world []) in
  fst out = Ok []
  /\ calls (snd out) = [EvSearch "Long wings" 0 {[ "order" := "Odonata" ]}].
Proof.
  pose proof (find_similar_entries_forwards_k
                (Demo.store [Demo.mantis; Demo.darter]) (Demo.llm "A darter.")
                "Long wings" 0%Z (Some "Odonata") (Demo.world [])
                ltac:(lia)) as (H1 & H2 & _).
  split; [exact H1 | exact H2].
Defined.

(** ** C5: errors of the collaborators *)

(** C5: an error raised by the similarity search, or by the generation
    call, is the error [identify_and_suggest] ends with, the very same one;
    the failing call is made once, nothing is called after it, and no
    answer comes back. *)
Theorem identify_and_suggest_propagates {St : Type}
    (similarity_search :
       string -> Z -> gmap string string -> St -> result (list Document) * St)
    (generate : string -> list (string * string) -> St -> result string * St)
    (observation : string) (order : option string) (w : World) (e : exn) :
  let md := Spec.order_filter order in
  let found := similarity_search observation 3%Z md (remote w) in
  let out := identify_and_suggest similarity_search generate observation order w in
  (fst found = Raise e ->
     fst (find_similar_entries similarity_search observation (Some 3%Z) order w)
     = Raise e
     /\ fst out = Raise e
     /\ calls (snd out) = calls w ++ [EvSearch observation 3 md])
  /\ (forall matches candidates,
        fst found = Ok matches ->
        describe_candidates matches = Ok candidates ->
        fst (generate (Spec.render_prompt observation candidates) model_kwargs
               (snd found)) = Raise e ->
        fst out = Raise e
        /\ calls (snd out)
           = calls w ++ [EvSearch observation 3 md;
                         EvGenerate (Spec.render_prompt observation candidates)
                                    model_kwargs]).
Proof.
  cbv zeta. split.
  - intros H. rewrite find_similar_entries_run, identify_and_suggest_run.
    unfold Spec.answer, Spec.searched. rewrite H. simpl. auto.
  - intros ms c Hs Hd Hg. rewrite identify_and_suggest_run.
    unfold Spec.answer, Spec.searched. rewrite Hs.
    rewrite <- describe_candidates_serialize, Hd.
    unfold Spec.generated. simpl. rewrite Hg. simpl.
    split; [reflexivity | now rewrite <- app_assoc].
Qed.

Lemma identify_and_suggest_propagates_witness :
  fst (identify_and_suggest Demo.store_down (Demo.llm "A mantis.")
         "Green insect" None (Demo.world []))
  = Raise (Remote "ServiceError")
  /\ fst (identify_and_suggest (Demo.store []) Demo.llm_down
            "Green insect" None (Demo.world []))
     = Raise (Remote "QuotaError").
Proof.
  split.
  - apply (identify_and_suggest_propagates Demo.store_down (Demo.llm "A mantis.")
             "Green insect" None (Demo.world []) (Remote "ServiceError")).
    reflexivity.
  - apply (proj2 (identify_and_suggest_propagates (Demo.store []) Demo.llm_down
             "Green insect" None (Demo.world []) (Remote "QuotaError"))
             [] "");
      reflexivity.
Defined.

(** ** C10: the metadata keys of a match *)

Lemma candidate_blocks_present (i : nat) (matches : list Document) :
  forallb Spec.has_keys matches = true ->
  exists blocks, candidate_blocks i matches = Ok blocks.
Proof.
  revert i. induction matches as [|doc rest IH]; intros i H.
  - exists []. reflexivity.
  - simpl in H. apply andb_true_iff in H as [Hd Hr].
    unfold Spec.has_keys in Hd. apply andb_true_iff in Hd as [Hn Ho].
    apply bool_decide_eq_true in Hn as [n Hn], Ho as [o Ho].
    destruct (IH (S i) Hr) as [bs Hbs].
    simpl. unfold candidate_block, getitem. rewrite Hn, Ho.
    cbv [mbind result_bind]. rewrite Hbs. eauto.
Qed.

Lemma candidate_blocks_missing (i : nat) (matches : list Document) :
  forallb Spec.has_keys matches = false ->
  candidate_blocks i matches = Raise (KeyError "name")
  \/ candidate_blocks i matches = Raise (KeyError "order").
Proof.
  revert i. induction matches as [|doc rest IH]; intros i H; [discriminate|].
  simpl in H. simpl. unfold candidate_block, getitem.
  destruct (metadata doc !! "name") as [n|] eqn:Hn; [|left; reflexivity].
  destruct (metadata doc !! "order") as [o|] eqn:Ho; [|right; reflexivity].
  cbv [mbind result_bind].
  assert (Spec.has_keys doc = true) as Hk.
  { unfold Spec.has_keys. rewrite Hn, Ho. reflexivity. }
  rewrite Hk in H. simpl in H.
  destruct (IH (S i) H) as [-> | ->]; auto.
Qed.

(** C10: when every retrieved match has both the ["name"] and the
    ["order"] key, [describe_candidates] returns a text and no [KeyError]
    can occur; when a retrieved match lacks one of them,
    [identify_and_suggest] fails with the [KeyError] of that key after the
    search and before any generation call. *)
Theorem describe_candidates_needs_keys {St : Type}
    (similarity_search :
       string -> Z -> gmap string string -> St -> result (list Document) * St)
    (generate : string -> list (string * string) -> St -> result string * St)
    (observation : string) (order : option string) (w : World)
    (matches : list Document) :
  (forallb Spec.has_keys matches = true ->
     exists candidates, describe_candidates matches = Ok candidates)
  /\ (forallb Spec.has_keys matches = false ->
      fst (similarity_search observation 3%Z (Spec.order_filter order) (remote w))
      = Ok matches ->
      let out := identify_and_suggest similarity_search generate
                   observation order w in
      (fst out = Raise (KeyError "name") \/ fst out = Raise (KeyError "order"))
      /\ calls (snd out)
         = calls w ++ [EvSearch observation 3 (Spec.order_filter order)]).
Proof.
  split.
  - intros H. destruct (candidate_blocks_present 0 matches H) as [bs Hbs].
    unfold describe_candidates. rewrite Hbs. eexists. reflexivity.
  - intros H Hs. cbv zeta. rewrite identify_and_suggest_run.
    unfold Spec.answer, Spec.searched. rewrite Hs.
    rewrite <- describe_candidates_serialize. unfold describe_candidates.
    destruct (candidate_blocks_missing 0 matches H) as [-> | ->]; simpl; auto.
Qed.

Lemma describe_candidates_needs_keys_witness :
  (exists candidates,
     describe_candidates [Demo.mantis; Demo.darter] = Ok candidates)
  /\ calls (snd (identify_and_suggest
                   (Demo.store [Demo.mantis; Demo.nameless_order])
                   (Demo.llm "A mantis.") "Brown insect" None (Demo.world [])))
     = [EvSearch "Brown insect" 3 ∅].
Proof.
  split.
  - apply (describe_candidates_needs_keys (Demo.store []) (Demo.llm "A mantis.")
             "Green insect" None (Demo.world []) [Demo.mantis; Demo.darter]).
    vm_compute. reflexivity.
  - apply (proj2 (describe_candidates_needs_keys
             (Demo.store [Demo.mantis; Demo.nameless_order])
             (Demo.llm "A mantis.") "Brown insect" None (Demo.world [])
             [Demo.mantis; Demo.nameless_order])).
    + vm_compute. reflexivity.
    + reflexivity.
Defined.

(** ** C3: no match retrieved *)

(** C3, as stated, fails: nothing is retrieved, the model answers with
    white space only, and the answer returned is the empty string. *)
Lemma identify_and_suggest_blank_answer_counterexample :
  identify_and_suggest (Demo.store []) (Demo.llm ("  " +:+ LF))
    "Green insect" None (Demo.world [])
  = (Ok "",
     {| remote := tt;
        calls := [EvSearch "Green insect" 3 ∅;
                  EvGenerate (Spec.render_prompt "Green insect" "") model_kwargs];
        stdin := []; stdout := [] |}).
Proof. rewrite identify_and_suggest_run. reflexivity. Qed.

(** C3, amended: when retrieval returns zero matches, the candidates block
    is the empty string, the template still renders, and the generation
    client is still invoked, once; [identify_and_suggest] then returns the
    generated text trimmed, which is empty exactly when the generated text
    is all white space, and it fails only if the generation call does. *)
Theorem identify_and_suggest_no_match {St : Type}
    (similarity_search :
       string -> Z -> gmap string string -> St -> result (list Document) * St)
    (generate : string -> list (string * string) -> St -> result string * St)
    (observation : string) (order : option string) (w : World) :
  let md := Spec.order_filter order in
  let found := similarity_search observation 3%Z md (remote w) in
  let prompt := Spec.render_prompt observation "" in
  let out := identify_and_suggest similarity_search generate observation order w in
  fst found = Ok [] ->
  describe_candidates [] = Ok ""
  /\ format_prompt observation "" = Ok prompt
  /\ calls (snd out)
     = calls w ++ [EvSearch observation 3 md; EvGenerate prompt model_kwargs]
  /\ fst out
     = match fst (generate prompt model_kwargs (snd found)) with
       | Ok text => Ok (PyStr.strip text)
       | Raise e => Raise e
       end
  /\ forall text, fst out = Ok text ->
       exists raw, fst (generate prompt model_kwargs (snd found)) = Ok raw
                   /\ text = PyStr.strip raw
                   /\ (text = "" <-> all_space raw = true).
Proof.
  cbv zeta. intros H.
  split; [reflexivity|]. split; [apply format_prompt_render|].
  rewrite identify_and_suggest_run. unfold Spec.answer, Spec.searched.
  rewrite H. change (Spec.serialize_matches []) with (Ok "" : result string).
  unfold Spec.generated. simpl.
  destruct (fst (generate _ _ _)) as [g|e]; simpl.
  - split; [now rewrite <- app_assoc|]. split; [reflexivity|].
    intros text [= <-]. exists g. split; [reflexivity|].
    split; [reflexivity | apply strip_empty_iff].
  - split; [now rewrite <- app_assoc|]. split; [reflexivity|].
    intros text [=].
Qed.

Lemma identify_and_suggest_no_match_witness :
  fst (identify_and_suggest (Demo.store []) (Demo.llm (" Unknown." +:+ LF))
         "Green insect" (Some "Odonata") (Demo.world []))
  = Ok "Unknown.".
Proof.
  pose proof (identify_and_suggest_no_match (Demo.store [])
                (Demo.llm (" Unknown." +:+ LF)) "Green insect" (Some "Odonata")
                (Demo.world []) ltac:(reflexivity)) as (_ & _ & _ & H & _).
  exact H.
Defined.

(** ** C7: where the configuration comes from *)

(** C7, as stated, fails: with no k passed, the retrieval asks for three
    matches, and an answer is produced with three matches, the notebook's
    template and the notebook's sampling parameters, none of which the
    caller supplied. *)
Lemma identify_and_suggest_defaults_counterexample :
  calls (snd (find_similar_entries (Demo.store []) "Green insect" None None
                (Demo.world [])))
  = [EvSearch "Green insect" 3 ∅]
  /\ calls (snd (identify_and_suggest (Demo.store []) (Demo.llm "Unknown.")
                   "Green insect" None (Demo.world [])))
     = [EvSearch "Green insect" 3 ∅;
        EvGenerate (Spec.prompt_head +:+ "" +:+ Spec.prompt_middle
                    +:+ "Green insect" +:+ Spec.prompt_tail)
                   [("max_new_tokens", "3072"); ("top_p", "0.4");
                    ("temperature", "0.001")]].
Proof.
  split; [reflexivity|].
  rewrite identify_and_suggest_run. reflexivity.
Qed.

(** C7, amended: in the notebook the number of matches (three, also the
    default of [find_similar_entries]), the prompt template text and the
    sampling parameters (max_new_tokens 3072, top_p 0.4, temperature 0.001)
    are constants of the code: whatever the store, the model, the
    observation and the order, [identify_and_suggest] searches with k = 3
    and, when it reaches the generation, sends the fixed template filled in
    together with these parameters. The caller supplies the observation and
    the order only. *)
Theorem identify_and_suggest_fixed_configuration {St : Type}
    (similarity_search :
       string -> Z -> gmap string string -> St -> result (list Document) * St)
    (generate : string -> list (string * string) -> St -> result string * St)
    (observation : string) (order : option string) (w : World) :
  (forall order' w',
     calls (snd (find_similar_entries similarity_search observation None
                   order' w'))
     = calls w' ++ [EvSearch observation 3 (Spec.order_filter order')])
  /\ exists later,
       calls (snd (identify_and_suggest similarity_search generate
                     observation order w))
       = calls w ++ EvSearch observation 3 (Spec.order_filter order) :: later
       /\ (later = []
           \/ exists candidates,
                later = [EvGenerate
                           (Spec.prompt_head +:+ candidates +:+ Spec.prompt_middle
                            +:+ observation +:+ Spec.prompt_tail)
                           [("max_new_tokens", "3072"); ("top_p", "0.4");
                            ("temperature", "0.001")]]).
Proof.
  split.
  - intros order' w'.
    change (find_similar_entries similarity_search observation None order' w')
      with (find_similar_entries similarity_search observation (Some 3%Z) order' w').
    rewrite find_similar_entries_run. reflexivity.
  - destruct (identify_and_suggest_calls similarity_search generate
                observation order w) as (_ & _ & [H | [c H]]).
    + exists []. split; [exact H | now left].
    + eexists. split; [exact H|]. right. exists c. reflexivity.
Qed.

(** ** C6: ids and repeated insertion *)

Lemma lower_char_space (c : ascii) :
  Ascii.eqb (PyStr.lower_char c) " " = Ascii.eqb c " ".
Proof.
  destruct c as [[] [] [] [] [] [] [] []]; reflexivity.
Qed.

Lemma ids_normalized (dataset : list Entry) :
  ids dataset = map (fun entry => Spec.normalized (name entry)) dataset.
Proof.
  unfold ids. apply map_ext. intros entry.
  induction (name entry) as [|c r IH]; [reflexivity|].
  simpl. rewrite lower_char_space.
  destruct (Ascii.eqb c " "); simpl; now rewrite IH.
Qed.

Section Reingestion.

Context {Vec : Type}.
Variable embed : string -> result Vec.

(** What an [upsert] writes does not depend on the collection it is
    written to: it lies over it. *)
Lemma upsert_over (records : list (string * (string * gmap string string)))
    (c : gmap string (@StoredRecord Vec)) :
  fst (upsert embed records c) = fst (upsert embed records ∅) ∪ c.
Proof.
  revert c. induction records as [|[id [text md]] rest IH]; intros c; simpl.
  - now rewrite (left_id_L ∅ (∪)).
  - destruct (embed text) as [v|e].
    + specialize (IH (<[id := {| rec_text := text; rec_metadata := md;
                                 rec_vector := v |}]> c)) as IH1.
      specialize (IH (<[id := {| rec_text := text; rec_metadata := md;
                                 rec_vector := v |}]> ∅)) as IH2.
      destruct (upsert embed rest (<[id := _]> c)) as [c1 r1].
      destruct (upsert embed rest (<[id := _]> ∅)) as [c2 r2].
      simpl in *. rewrite IH1, IH2.
      rewrite (insert_union_singleton_l c), insert_empty.
      now rewrite (assoc_L (∪)).
    + specialize (IH c).
      destruct (upsert embed rest c) as [c1 r1].
      destruct (upsert embed rest ∅) as [c2 r2].
      exact IH.
Qed.

Lemma upsert_report (records : list (string * (string * gmap string string)))
    (c c' : gmap string (@StoredRecord Vec)) :
  snd (upsert embed records c) = snd (upsert embed records c').
Proof.
  revert c c'. induction records as [|[id [text md]] rest IH]; intros c c';
    simpl; [reflexivity|].
  destruct (embed text) as [v|e].
  - specialize (IH (<[id := {| rec_text := text; rec_metadata := md;
                               rec_vector := v |}]> c)
                   (<[id := {| rec_text := text; rec_metadata := md;
                               rec_vector := v |}]> c')).
    destruct (upsert embed rest (<[id := _]> c)) as [c1 r1].
    destruct (upsert embed rest (<[id := _]> c')) as [c2 r2].
    simpl in *. now rewrite IH.
  - specialize (IH c c').
    destruct (upsert embed rest c) as [c1 r1].
    destruct (upsert embed rest c') as [c2 r2].
    simpl in *. now rewrite IH.
Qed.

Lemma upsert_twice (records : list (string * (string * gmap string string)))
    (c : gmap string (@StoredRecord Vec)) :
  upsert embed records (fst (upsert embed records c)) = upsert embed records c.
Proof.
  apply injective_projections.
  - rewrite (upsert_over records (fst _)), (upsert_over records c).
    rewrite (assoc_L (∪)). now rewrite (idemp_L (∪)).
  - apply upsert_report.
Qed.

Lemma ingest_runs (dataset : list Entry) (c : gmap string (@StoredRecord Vec)) :
  ingest embed dataset c
  = Ok (upsert embed
          (zip (ids dataset) (zip (texts dataset) (metadatas dataset))) c).
Proof.
  unfold ingest, add_texts, texts, metadatas, ids.
  rewrite !length_map, Nat.eqb_refl. reflexivity.
Qed.

End Reingestion.

(** C6: the id of an entry is its name lowercased with every space turned
    into an underscore, so it depends on the name alone; inserting the same
    entries a second time gives the same ids and leaves the collection, and
    so its size, as the first insertion left it. *)
Theorem ingest_idempotent {Vec : Type} (embed : string -> result Vec)
    (dataset : list Entry) (c : gmap string (@StoredRecord Vec)) :
  ids dataset = map (fun entry => Spec.normalized (name entry)) dataset
  /\ (forall other, map name other = map name dataset -> ids other = ids dataset)
  /\ exists c1 report,
       ingest embed dataset c = Ok (c1, report)
       /\ ingest embed dataset c1 = Ok (c1, report)
       /\ forall c2 report2,
            ingest embed dataset c1 = Ok (c2, report2) -> size c2 = size c1.
Proof.
  split; [apply ids_normalized|]. split.
  - intros other H. rewrite !ids_normalized.
    rewrite <- (map_map name Spec.normalized other).
    rewrite <- (map_map name Spec.normalized dataset). now rewrite H.
  - destruct (upsert embed
                (zip (ids dataset) (zip (texts dataset) (metadatas dataset))) c)
      as [c1 report] eqn:E.
    assert (ingest embed dataset c1 = Ok (c1, report)) as H2.
    { rewrite ingest_runs.
      replace c1 with (fst (upsert embed
        (zip (ids dataset) (zip (texts dataset) (metadatas dataset))) c)) at 1
        by now rewrite E.
      now rewrite upsert_twice, E. }
    exists c1, report. split; [now rewrite ingest_runs, E|].
    split; [exact H2|].
    intros c2 report2 H. rewrite H2 in H. now inversion H.
Qed.

Example ingest_demo :
  exists c1 report,
    ingest Demo.embed Demo.dataset ∅ = Ok (c1, report)
    /\ size c1 = 2
    /\ map fst report
       = ["mantis_religiosa"; "sympetrum_striolatum"; "mantis_religiosa"].
Proof.
  eexists _, _. split; [rewrite ingest_runs; reflexivity|].
  split; vm_compute; reflexivity.
Qed.

(** ** C8: the input loop *)

Section Loop.

Context {St : Type}.
Variable similarity_search :
  string -> Z -> gmap string string -> St -> result (list Document) * St.
Variable generate :
  string -> list (string * string) -> St -> result string * St.

(** A turn on a line that is blank once trimmed: the loop breaks, nothing
    is called. *)
Lemma app_turn_blank (w : World) (line : string) (rest : list string) :
  stdin w = line :: rest -> Spec.blank line = true ->
  exists w', app_turn similarity_search generate w = (Ok (Some tt), w')
             /\ calls w' = calls w /\ stdin w' = rest.
Proof.
  intros Hin Hb. unfold Spec.blank in Hb. apply negb_true_iff in Hb.
  unfold app_turn, bind at 1, input. rewrite Hin, Hb.
  unfold bind, print, ret. simpl. eexists. split; [reflexivity|]. auto.
Qed.

(** A turn on any other line: one answer is asked for the trimmed line,
    and the loop either goes on or ends with the error of that answer. *)
Lemma app_turn_line (w : World) (line : string) (rest : list string) :
  stdin w = line :: rest -> Spec.blank line = false ->
  exists r w' later,
    app_turn similarity_search generate w = (r, w')
    /\ r <> Ok (Some tt)
    /\ stdin w' = rest
    /\ calls w' = calls w ++ EvSearch (PyStr.strip line) 3 ∅ :: later
    /\ List.filter is_search later = [].
Proof.
  intros Hin Hb. unfold Spec.blank in Hb. apply negb_false_iff in Hb.
  unfold app_turn, bind at 1, input. rewrite Hin, Hb.
  unfold bind at 1, print at 1. unfold bind at 1.
  match goal with
  | |- context [identify_and_suggest _ _ _ _ ?w1] =>
      pose proof (identify_and_suggest_calls similarity_search generate
                    (PyStr.strip line) None w1) as (Hi & _ & Hc);
      destruct (identify_and_suggest similarity_search generate
                  (PyStr.strip line) None w1) as [[text|e] w2]
  end; simpl in Hi, Hc.
  - unfold bind, print, ret. simpl.
    destruct Hc as [Hc | [c Hc]];
      do 3 eexists; (split; [reflexivity|]); simpl; rewrite Hc;
      (split; [discriminate|]); (split; [exact Hi|]);
      (split; [reflexivity|]); reflexivity.
  - destruct Hc as [Hc | [c Hc]];
      do 3 eexists; (split; [reflexivity|]); simpl; rewrite Hc;
      (split; [discriminate|]); (split; [exact Hi|]);
      (split; [reflexivity|]); reflexivity.
Qed.

End Loop.

(** C8, as stated, fails: the first line entered is not empty (three
    spaces), yet no answer is asked for it and the loop ends on it, no
    empty line having been entered; the next line is never read. *)
Lemma app_loop_blank_line_counterexample :
  exists w',
    app_loop (Demo.store [Demo.mantis]) (Demo.llm "A mantis.") 3
      (Demo.world ["   "; "A green insect"])
    = Some (Ok tt, w')
    /\ "   " <> ""
    /\ calls w' = []
    /\ stdin w' = ["A green insect"].
Proof.
  eexists. split; [vm_compute; reflexivity|].
  split; [discriminate|]. split; reflexivity.
Qed.

(** The searches of the loop, counted line by line. *)
Lemma app_loop_counts {St : Type}
    (similarity_search :
       string -> Z -> gmap string string -> St -> result (list Document) * St)
    (generate : string -> list (string * string) -> St -> result string * St)
    (lines : list string) (last : string) (rest : list string)
    (fuel : nat) (w : World) :
  stdin w = lines ++ last :: rest ->
  forallb (fun line => negb (Spec.blank line)) lines = true ->
  Spec.blank last = true ->
  length lines < fuel ->
  exists r w' n new,
    app_loop similarity_search generate fuel w = Some (r, w')
    /\ n <= length lines
    /\ calls w' = calls w ++ new
    /\ List.filter is_search new
       = map (fun line => EvSearch (PyStr.strip line) 3 ∅) (take n lines)
    /\ (r = Ok tt -> n = length lines /\ stdin w' = rest)
    /\ (forall e, r = Raise e ->
          0 < n /\ stdin w' = drop n lines ++ last :: rest).
Proof.
  revert fuel w. induction lines as [|line more IH]; intros fuel w Hin Hl Hb Hf.
  - destruct fuel as [|fuel]; [simpl in Hf; lia|].
    destruct (app_turn_blank similarity_search generate w last rest Hin Hb)
      as (w' & Ht & Hc & Hs).
    exists (Ok tt), w', 0, []. simpl. rewrite Ht.
    split; [reflexivity|]. split; [lia|].
    split; [now rewrite app_nil_r|]. split; [reflexivity|].
    split; [auto | intros e [=]].
  - destruct fuel as [|fuel]; [simpl in Hf; lia|].
    simpl in Hl. apply andb_true_iff in Hl as [Hl1 Hl2].
    apply negb_true_iff in Hl1.
    destruct (app_turn_line similarity_search generate w line
                (more ++ last :: rest) Hin Hl1)
      as (r & w1 & later & Ht & Hr & Hs & Hc & Hlater).
    simpl app_loop. rewrite Ht.
    destruct r as [[[]|]|e].
    + congruence.
    + destruct (IH fuel w1 Hs Hl2 Hb ltac:(simpl in Hf; lia))
        as (r' & w' & n & new & Hrun & Hn & Hc' & Hf' & Hok & Herr).
      exists r', w', (S n), (EvSearch (PyStr.strip line) 3 ∅ :: later ++ new).
      split; [exact Hrun|]. split; [simpl; lia|].
      split; [rewrite Hc', Hc, <- app_assoc; reflexivity|].
      split.
      { simpl. rewrite List.filter_app, Hlater, Hf'. reflexivity. }
      split.
      { intros Hr'. destruct (Hok Hr') as [-> ->]. auto. }
      { intros e Hr'. destruct (Herr e Hr') as [_ ->]. split; [lia|reflexivity]. }
    + exists (Raise e), w1, 1, (EvSearch (PyStr.strip line) 3 ∅ :: later).
      split; [reflexivity|]. split; [simpl; lia|].
      split; [exact Hc|]. split; [simpl; now rewrite Hlater|].
      split; [intros [=]|]. intros e' _. split; [lia|]. exact Hs.
Qed.

Section SessionRuns.

Context {St : Type}.
Variable similarity_search :
  string -> Z -> gmap string string -> St -> result (list Document) * St.
Variable generate :
  string -> list (string * string) -> St -> result string * St.

(** The turn on a blank line, as an equation. *)
Lemma app_turn_blank_run (w : World) (line : string) (tail : list string) :
  stdin w = line :: tail -> Spec.blank line = true ->
  app_turn similarity_search generate w
  = (Ok (Some tt), turned w tail [loop_prompt; "(no input)"]).
Proof.
  intros Hin Hb. unfold Spec.blank in Hb. apply negb_true_iff in Hb.
  unfold app_turn, bind at 1, input. rewrite Hin, Hb.
  unfold bind, print, ret, turned. simpl. now rewrite <- app_assoc.
Qed.

(** The turn on any other line, as an equation: its outcome is the outcome
    of the answer asked for the trimmed line. *)
Lemma app_turn_line_run (w : World) (line : string) (tail : list string) :
  stdin w = line :: tail -> Spec.blank line = false ->
  app_turn similarity_search generate w
  = match identify_and_suggest similarity_search generate
            (PyStr.strip line) None
            (turned w tail [loop_prompt; loop_rule]) with
    | (Ok text, w2) =>
        (Ok None, turned w2 (stdin w2) ["Result ==> " +:+ text])
    | (Raise e, w2) => (Raise e, w2)
    end.
Proof.
  intros Hin Hb. unfold Spec.blank in Hb. apply negb_false_iff in Hb.
  unfold app_turn, bind at 1, input. rewrite Hin, Hb.
  unfold bind at 1, print at 1. unfold bind at 1.
  match goal with
  | |- context [identify_and_suggest _ _ _ _ ?w1] =>
      replace w1 with (turned w tail [loop_prompt; loop_rule])
        by (unfold turned; simpl; now rewrite <- app_assoc)
  end.
  destruct (identify_and_suggest similarity_search generate
              (PyStr.strip line) None (turned w tail [loop_prompt; loop_rule]))
    as [[text|e] w2]; reflexivity.
Qed.

(** With the lines known, the loop is the session. *)
Lemma app_loop_session (lines : list string) (last : string)
    (rest : list string) (fuel : nat) (w : World) :
  stdin w = lines ++ last :: rest ->
  forallb (fun line => negb (Spec.blank line)) lines = true ->
  Spec.blank last = true ->
  length lines < fuel ->
  app_loop similarity_search generate fuel w
  = Some (session similarity_search generate lines last rest w).
Proof.
  revert fuel w. induction lines as [|line more IH]; intros fuel w Hin Hl Hb Hf.
  - destruct fuel as [|fuel]; [simpl in Hf; lia|].
    simpl app_loop. rewrite (app_turn_blank_run w last rest Hin Hb).
    reflexivity.
  - destruct fuel as [|fuel]; [simpl in Hf; lia|].
    simpl in Hl. apply andb_true_iff in Hl as [Hl1 Hl2].
    apply negb_true_iff in Hl1.
    simpl app_loop.
    rewrite (app_turn_line_run w line (more ++ last :: rest) Hin Hl1).
    unfold session. simpl answers.
    pose proof (identify_and_suggest_calls similarity_search generate
                  (PyStr.strip line) None
                  (turned w (more ++ last :: rest) [loop_prompt; loop_rule]))
      as (Hi & _).
    destruct (identify_and_suggest similarity_search generate
                (PyStr.strip line) None
                (turned w (more ++ last :: rest) [loop_prompt; loop_rule]))
      as [[text|e] w2]; [|reflexivity].
    simpl in Hi.
    rewrite (IH fuel (turned w2 (stdin w2) ["Result ==> " +:+ text]));
      [reflexivity | exact Hi | exact Hl2 | exact Hb | simpl in Hf; lia].
Qed.

End SessionRuns.

(** C8, amended: the input loop asks for one answer per entered line that
    is not empty once trimmed, in order and with the trimmed line as
    observation, and ends at the first line that is empty once trimmed,
    leaving the lines after it unread and asking for nothing more; an
    answer that raises ends the loop at its line with that error. Given
    the lines, the loop does end, and its outcome and final world are
    those of the session: the outcome is normal exactly when every answer
    was returned, and is the error of the first answer that raised
    otherwise. *)
Theorem app_loop_one_answer_per_line {St : Type}
    (similarity_search :
       string -> Z -> gmap string string -> St -> result (list Document) * St)
    (generate : string -> list (string * string) -> St -> result string * St)
    (lines : list string) (last : string) (rest : list string)
    (fuel : nat) (w : World) :
  stdin w = lines ++ last :: rest ->
  forallb (fun line => negb (Spec.blank line)) lines = true ->
  Spec.blank last = true ->
  length lines < fuel ->
  exists r w' n new,
    app_loop similarity_search generate fuel w = Some (r, w')
    /\ (r, w') = session similarity_search generate lines last rest w
    /\ (r = Ok tt
        <-> fst (answers similarity_search generate lines (last :: rest) w)
            = Ok tt)
    /\ (forall e,
          r = Raise e
          <-> fst (answers similarity_search generate lines (last :: rest) w)
              = Raise e)
    /\ n <= length lines
    /\ calls w' = calls w ++ new
    /\ List.filter is_search new
       = map (fun line => EvSearch (PyStr.strip line) 3 ∅) (take n lines)
    /\ (r = Ok tt -> n = length lines /\ stdin w' = rest)
    /\ (forall e, r = Raise e ->
          0 < n /\ stdin w' = drop n lines ++ last :: rest).
Proof.
  intros Hin Hl Hb Hf.
  destruct (app_loop_counts similarity_search generate lines last rest fuel w
              Hin Hl Hb Hf)
    as (r & w' & n & new & Hrun & Hn & Hc & Hs & Hok & Herr).
  pose proof (app_loop_session similarity_search generate lines last rest
                fuel w Hin Hl Hb Hf) as Hsession.
  rewrite Hrun in Hsession. injection Hsession as Hsession.
  exists r, w', n, new.
  split; [exact Hrun|]. split; [exact Hsession|].
  assert (r = fst (session similarity_search generate lines last rest w)) as Hr
    by now rewrite <- Hsession.
  unfold session in Hr.
  destruct (answers similarity_search generate lines (last :: rest) w)
    as [[[]|e0] w1]; simpl in Hr; subst r.
  - split; [tauto|]. split; [intros e; split; discriminate|]. auto.
  - split; [split; discriminate|]. split; [intros e; tauto|]. auto.
Qed.

Lemma app_loop_one_answer_per_line_witness :
  let store := Trial.store_down_for "Brown one" [Demo.mantis] in
  let model := Demo.llm "A mantis." in
  let lines := [" Green insect"; "Brown one "; "Grey one"] in
  let w := Demo.world [" Green insect"; "Brown one "; "Grey one"; " ";
                       "never read"] in
  exists r w' n new,
    app_loop store model 5 w = Some (r, w')
    /\ (r, w') = session store model lines " " ["never read"] w
    /\ (r = Ok tt
        <-> fst (answers store model lines (" " :: ["never read"]) w) = Ok tt)
    /\ (forall e,
          r = Raise e
          <-> fst (answers store model lines (" " :: ["never read"]) w)
              = Raise e)
    /\ n <= length lines
    /\ calls w' = calls w ++ new
    /\ List.filter is_search new
       = map (fun line => EvSearch (PyStr.strip line) 3 ∅) (take n lines)
    /\ (r = Ok tt -> n = length lines /\ stdin w' = ["never read"])
    /\ (forall e, r = Raise e ->
          0 < n /\ stdin w' = drop n lines ++ " " :: ["never read"]).
Proof.
  cbv zeta.
  apply (app_loop_one_answer_per_line
           (Trial.store_down_for "Brown one" [Demo.mantis])
           (Demo.llm "A mantis.")
           [" Green insect"; "Brown one "; "Grey one"] " " ["never read"] 5
           (Demo.world [" Green insect"; "Brown one "; "Grey one"; " ";
                        "never read"])).
  - reflexivity.
  - vm_compute. reflexivity.
  - vm_compute. reflexivity.
  - simpl. lia.
Defined.

Example app_loop_error_ex :
  exists w',
    app_loop (Trial.store_down_for "Brown one" [Demo.mantis])
      (Demo.llm "A mantis.") 5
      (Demo.world [" Green insect"; "Brown one "; "Grey one"; " ";
                   "never read"])
    = Some (Raise (Remote "ServiceError"), w')
    /\ List.filter is_search (calls w')
       = [EvSearch "Green insect" 3 ∅; EvSearch "Brown one" 3 ∅]
    /\ length (List.filter is_generate (calls w')) = 1
    /\ stdin w' = ["Grey one"; " "; "never read"].
Proof.
  eexists. split; [vm_compute; reflexivity|].
  repeat split; vm_compute; reflexivity.
Qed.

Example app_demo :
  exists w',
    app (Demo.store [Demo.mantis]) (Demo.llm (" A mantis." +:+ LF)) 5
      (Demo.world [" Green insect"; ""; "never read"])
    = Some (Ok tt, w')
    /\ List.filter is_search (calls w') = [EvSearch "Green insect" 3 ∅]
    /\ length (List.filter is_generate (calls w')) = 1
    /\ stdin w' = ["never read"]
    /\ nth 2 (stdout w') "" = "Result ==> A mantis.".
Proof.
  eexists. split; [vm_compute; reflexivity|].
  repeat split; vm_compute; reflexivity.
Qed.

(** * Further properties of the notebook's code *)

(** ** Trimming *)

Lemma lstrip_head (s : string) :
  PyStr.lstrip s = ""
  \/ exists c r, PyStr.lstrip s = String c r /\ PyStr.isspace c = false.
Proof.
  induction s as [|c r IH]; simpl; [now left|].
  destruct (PyStr.isspace c) eqn:E; [exact IH|].
  right. now exists c, r.
Qed.

Lemma rstrip_keeps_head (c : ascii) (r : string) :
  PyStr.isspace c = false ->
  PyStr.rstrip (String c r) = String c (PyStr.rstrip r).
Proof.
  intros H. simpl. rewrite H. now destruct (PyStr.rstrip r).
Qed.

Lemma rstrip_idempotent (s : string) :
  PyStr.rstrip (PyStr.rstrip s) = PyStr.rstrip s.
Proof.
  induction s as [|c r IH]; [reflexivity|].
  simpl. destruct (PyStr.rstrip r) as [|c' r'] eqn:E.
  - destruct (PyStr.isspace c) eqn:Hc; [reflexivity|].
    simpl. now rewrite Hc.
  - change (PyStr.rstrip (String c (String c' r')))
      with (match PyStr.rstrip (String c' r') with
            | EmptyString =>
                if PyStr.isspace c then EmptyString else String c EmptyString
            | r0 => String c r0
            end).
    now rewrite IH.
Qed.

Lemma strip_fixed (s : string) :
  PyStr.lstrip (PyStr.strip s) = PyStr.strip s
  /\ PyStr.rstrip (PyStr.strip s) = PyStr.strip s.
Proof.
  unfold PyStr.strip. split; [|apply rstrip_idempotent].
  destruct (lstrip_head s) as [-> | (c & r & -> & Hc)]; [reflexivity|].
  rewrite (rstrip_keeps_head c r Hc). simpl. now rewrite Hc.
Qed.

Lemma strip_idempotent (s : string) :
  PyStr.strip (PyStr.strip s) = PyStr.strip s.
Proof.
  destruct (strip_fixed s) as [H1 H2].
  unfold PyStr.strip at 1. now rewrite H1, H2.
Qed.

(** X1: an answer that [identify_and_suggest] returns carries no white
    space at either end: trimming it again, on the left, on the right or on
    both sides, changes nothing. *)
Theorem identify_and_suggest_answer_trimmed {St : Type}
    (similarity_search :
       string -> Z -> gmap string string -> St -> result (list Document) * St)
    (generate : string -> list (string * string) -> St -> result string * St)
    (observation : string) (order : option string) (w : World) (text : string) :
  fst (identify_and_suggest similarity_search generate observation order w)
  = Ok text ->
  PyStr.strip text = text
  /\ PyStr.lstrip text = text
  /\ PyStr.rstrip text = text.
Proof.
  rewrite identify_and_suggest_run. unfold Spec.answer.
  destruct (Spec.searched _ _ _ _ _) as [[ms|e] w1]; [|discriminate].
  destruct (Spec.serialize_matches ms) as [c|e]; [|discriminate].
  destruct (Spec.generated _ _ _) as [[g|e] w2]; [|discriminate].
  simpl. intros [= <-].
  destruct (strip_fixed g). auto using strip_idempotent.
Qed.

Lemma identify_and_suggest_answer_trimmed_witness :
  PyStr.strip "A mantis." = "A mantis."
  /\ PyStr.lstrip "A mantis." = "A mantis."
  /\ PyStr.rstrip "A mantis." = "A mantis.".
Proof.
  apply (identify_and_suggest_answer_trimmed (Demo.store [Demo.mantis])
           (Demo.llm ("  A mantis. " +:+ LF)) "Green insect" None
           (Demo.world [])).
  rewrite identify_and_suggest_run. reflexivity.
Defined.

(** ** The dataset preview *)

(** Linear arithmetic with the lengths of strings taken as unknowns. *)
Ltac len_lia :=
  repeat match goal with
         | H : context [String.length ?x] |- _ =>
             let n := fresh "n" in set (n := String.length x) in *; clearbody n
         | |- context [String.length ?x] =>
             let n := fresh "n" in set (n := String.length x) in *; clearbody n
         end;
  lia.

Lemma prefix_length (n : nat) (s : string) :
  String.length (PySeq.prefix n s) = Nat.min n (String.length s).
Proof.
  revert s. induction n as [|n IH]; intros [|c r]; simpl; auto.
Qed.

Lemma string_app_length (a b : string) :
  String.length (a +:+ b) = String.length a + String.length b.
Proof.
  induction a as [|c a IH]; [reflexivity|].
  rewrite string_app_cons. simpl. now rewrite IH.
Qed.

Lemma prefix_of_prefix_app (n : nat) (s tail : string) :
  n <= String.length s ->
  PySeq.prefix n (PySeq.prefix n s +:+ tail) = PySeq.prefix n s.
Proof.
  revert s. induction n as [|n IH]; intros [|c r] H;
    try reflexivity; try (simpl in H; len_lia).
  change (PySeq.prefix (S n) (String c r)) with (String c (PySeq.prefix n r)).
  rewrite string_app_cons.
  change (String c (PySeq.prefix n (PySeq.prefix n r +:+ tail))
          = String c (PySeq.prefix n r)).
  f_equal. apply IH. simpl in H. len_lia.
Qed.

Lemma prefix_all (n : nat) (s : string) :
  String.length s <= n -> PySeq.prefix n s = s.
Proof.
  revert s. induction n as [|n IH]; intros [|c r] H; simpl in *;
    try reflexivity; try len_lia.
  f_equal. apply IH. len_lia.
Qed.

Lemma shorten_as_map (dct : list (string * string)) :
  _shorten dct = map (fun kv => (fst kv, shorten_value (snd kv))) dct.
Proof. unfold _shorten. apply map_ext. now intros [k v]. Qed.

Lemma shorten_value_length (v : string) :
  String.length (shorten_value v) <= 43.
Proof.
  unfold shorten_value. destruct (Nat.ltb_spec (String.length v) 40) as [H|H].
  - len_lia.
  - rewrite string_app_length, prefix_length.
    change (String.length "...") with 3. len_lia.
Qed.

Lemma shorten_value_short (v : string) :
  String.length v < 40 -> shorten_value v = v.
Proof. intros H. unfold shorten_value. now apply Nat.ltb_lt in H as ->. Qed.

Lemma shorten_value_long (v : string) :
  40 <= String.length v -> shorten_value v = PySeq.prefix 40 v +:+ "...".
Proof. intros H. unfold shorten_value. now apply Nat.ltb_ge in H as ->. Qed.

Lemma shorten_value_idempotent (v : string) :
  shorten_value (shorten_value v) = shorten_value v.
Proof.
  destruct (Nat.ltb_spec (String.length v) 40) as [H|H].
  - now rewrite !(shorten_value_short v H).
  - rewrite (shorten_value_long v H).
    assert (String.length (PySeq.prefix 40 v +:+ "...") = 43) as E.
    { rewrite string_app_length, prefix_length.
      change (String.length "...") with 3. len_lia. }
    rewrite shorten_value_long by (rewrite E; lia).
    now rewrite prefix_of_prefix_app.
Qed.

(** X2: shortening a dictionary twice gives what shortening it once
    gives. *)
Theorem shorten_idempotent (dct : list (string * string)) :
  _shorten (_shorten dct) = _shorten dct.
Proof.
  rewrite !shorten_as_map, map_map. apply map_ext. intros [k v]. simpl.
  now rewrite shorten_value_idempotent.
Qed.

(** X3: [_shorten] keeps the keys, in their order; every value of the
    result has at most 43 characters and starts with the first 40
    characters of the value it comes from; a value shorter than 40
    characters is kept as it is, a longer one ends with three dots. *)
Theorem shorten_bounds (dct : list (string * string)) :
  map fst (_shorten dct) = map fst dct
  /\ Forall2 (fun old new =>
                String.length (snd new) <= 43
                /\ PySeq.prefix 40 (snd new) = PySeq.prefix 40 (snd old)
                /\ (String.length (snd old) < 40 -> snd new = snd old)
                /\ (40 <= String.length (snd old) ->
                    snd new = PySeq.prefix 40 (snd old) +:+ "..."))
             dct (_shorten dct).
Proof.
  rewrite shorten_as_map. split.
  - rewrite map_map. reflexivity.
  - induction dct as [|[k v] rest IH]; constructor; [|exact IH].
    cbn [fst snd]. split; [apply shorten_value_length|].
    destruct (Nat.ltb_spec (String.length v) 40) as [H|H].
    + rewrite (shorten_value_short v H).
      split; [reflexivity|]. split; [reflexivity | len_lia].
    + rewrite (shorten_value_long v H).
      split; [now apply prefix_of_prefix_app|]. split; [len_lia | reflexivity].
Qed.

(** ** The prepared lists *)

Lemma lowered_app (a b : string) :
  lowered (a +:+ b) = lowered a && lowered b.
Proof.
  induction a as [|c a IH]; [reflexivity|].
  rewrite string_app_cons. simpl. rewrite IH. now rewrite !andb_assoc.
Qed.

Lemma normalized_char_lowered (c : ascii) :
  lowered (if Ascii.eqb c " " then "_" else String (PyStr.lower_char c) "")
  = true.
Proof. destruct c as [[] [] [] [] [] [] [] []]; reflexivity. Qed.

Lemma normalized_lowered (n : string) : lowered (Spec.normalized n) = true.
Proof.
  induction n as [|c r IH]; [reflexivity|].
  pose proof (normalized_char_lowered c) as H. simpl.
  destruct (Ascii.eqb c " ").
  - change (String "_" (Spec.normalized r))
      with ("_" +:+ Spec.normalized r).
    now rewrite lowered_app, H, IH.
  - change (String (PyStr.lower_char c) (Spec.normalized r))
      with (String (PyStr.lower_char c) "" +:+ Spec.normalized r).
    now rewrite lowered_app, H, IH.
Qed.

Lemma lower_char_lowered (c : ascii) :
  lowered (String c "") = true -> PyStr.lower_char c = c.
Proof.
  destruct c as [[] [] [] [] [] [] [] []]; vm_compute; intros H;
    (reflexivity || discriminate H).
Qed.

Lemma normalized_fixed (s : string) :
  lowered s = true -> Spec.normalized s = s.
Proof.
  induction s as [|c r IH]; [reflexivity|].
  intros H.
  assert (lowered (String c "") = true /\ lowered r = true) as [Hc Hr].
  { simpl in *. rewrite !andb_true_iff in *. tauto. }
  simpl. rewrite (IH Hr), (lower_char_lowered c Hc).
  assert (Ascii.eqb c " " = false) as ->; [|reflexivity].
  simpl in Hc. rewrite !andb_true_iff, !negb_true_iff in Hc. tauto.
Qed.

(** X4: the three lists prepared for insertion run parallel to the
    dataset (one text, one metadata dictionary and one id per row); every
    id is free of spaces and of capital letters, and deriving an id from
    an id gives it back. *)
Theorem ids_well_formed (sample_dataset : list Entry) :
  length (texts sample_dataset) = length sample_dataset
  /\ length (metadatas sample_dataset) = length sample_dataset
  /\ length (ids sample_dataset) = length sample_dataset
  /\ Forall (fun id =>
               lowered id = true
               /\ PyStr.replace_char " " "_" (PyStr.lower id) = id)
            (ids sample_dataset).
Proof.
  unfold texts, metadatas. rewrite !length_map.
  split; [reflexivity|]. split; [reflexivity|].
  split; [unfold ids; now rewrite length_map|].
  rewrite ids_normalized. apply Forall_map, Forall_forall. intros entry _.
  split; [apply normalized_lowered|].
  pose proof (ids_normalized [ {| name := Spec.normalized (name entry);
                                  order := ""; description := "" |} ]) as H.
  injection H as H. simpl in H. rewrite H.
  apply normalized_fixed, normalized_lowered.
Qed.

Lemma documents_of_map (sample_dataset : list Entry) :
  documents_of sample_dataset
  = map (fun entry =>
           {| page_content := description entry;
              metadata := {[ "name" := name entry; "order" := order entry ]} |})
        sample_dataset.
Proof.
  unfold documents_of, texts, metadatas.
  induction sample_dataset as [|entry rest IH]; [reflexivity|].
  simpl. now rewrite IH.
Qed.

Lemma candidate_blocks_of_entries (i : nat) (sample_dataset : list Entry) :
  candidate_blocks i (documents_of sample_dataset)
  = Ok (imap (fun j entry =>
                Spec.closed_block (S (i + j)) (name entry) (order entry)
                                  (description entry))
             sample_dataset).
Proof.
  rewrite documents_of_map. revert i.
  induction sample_dataset as [|entry rest IH]; intros i; [reflexivity|].
  simpl. rewrite candidate_block_serialize. unfold Spec.serialize_match. simpl.
  rewrite lookup_insert_eq, lookup_insert_ne by discriminate.
  rewrite lookup_singleton_eq.
  cbv [mbind result_bind]. rewrite IH, Nat.add_0_r. do 2 f_equal.
  apply imap_ext. intros j x _. simpl. now rewrite Nat.add_succ_r.
Qed.

(** X5: the documents made of the prepared texts and metadata always have
    the two keys [describe_candidates] reads, so serializing them cannot
    raise [KeyError]: the result is the blocks of the rows, numbered from
    one, each with the name, order and description of its row. *)
Theorem describe_candidates_of_dataset (sample_dataset : list Entry) :
  forallb Spec.has_keys (documents_of sample_dataset) = true
  /\ describe_candidates (documents_of sample_dataset)
     = Ok (PyStr.join LF
             (imap (fun i entry =>
                      Spec.closed_block (S i) (name entry) (order entry)
                                        (description entry))
                   sample_dataset)).
Proof.
  split.
  - rewrite documents_of_map. induction sample_dataset as [|entry rest IH];
      [reflexivity|].
    simpl. rewrite IH, andb_true_r. unfold Spec.has_keys. simpl.
    rewrite lookup_insert_eq, lookup_insert_ne by discriminate.
    rewrite lookup_singleton_eq. reflexivity.
  - unfold describe_candidates. rewrite candidate_blocks_of_entries.
    reflexivity.
Qed.

(** ** More on the input loop *)

Section LoopOutcomes.

Context {St : Type}.
Variable similarity_search :
  string -> Z -> gmap string string -> St -> result (list Document) * St.
Variable generate :
  string -> list (string * string) -> St -> result string * St.

(** An answer that is returned took one search and one generation. *)
Lemma identify_and_suggest_ok_calls (observation : string)
    (order : option string) (w : World) (text : string) :
  fst (identify_and_suggest similarity_search generate observation order w)
  = Ok text ->
  exists candidates,
    calls (snd (identify_and_suggest similarity_search generate
                  observation order w))
    = calls w ++ [EvSearch observation 3 (Spec.order_filter order);
                  EvGenerate (Spec.render_prompt observation candidates)
                             model_kwargs].
Proof.
  rewrite identify_and_suggest_run. unfold Spec.answer, Spec.searched.
  destruct (fst (similarity_search _ _ _ _)) as [ms|e]; [|discriminate].
  destruct (Spec.serialize_matches ms) as [c|e]; [|discriminate].
  unfold Spec.generated.
  destruct (fst (generate _ _ _)) as [g|e]; [|discriminate].
  simpl. intros _. exists c. now rewrite <- app_assoc.
Qed.

(** The three ways a turn of the loop can go. *)
Lemma app_turn_outcome (w : World) :
  exists r w',
    app_turn similarity_search generate w = (r, w')
    /\ match stdin w with
       | [] =>
           r = Raise EOFError /\ calls w' = calls w /\ stdin w' = []
           /\ stdout w' = stdout w ++ [loop_prompt]
       | line :: rest =>
           stdin w' = rest
           /\ if Spec.blank line then
                r = Ok (Some tt) /\ calls w' = calls w
                /\ stdout w' = stdout w ++ [loop_prompt; "(no input)"]
              else
                exists later,
                  calls w' = calls w ++ EvSearch (PyStr.strip line) 3 ∅ :: later
                  /\ List.filter is_search later = []
                  /\ ((exists text candidates,
                         r = Ok None
                         /\ later = [EvGenerate
                                       (Spec.render_prompt (PyStr.strip line)
                                                           candidates)
                                       model_kwargs]
                         /\ length (List.filter is_generate later) = 1
                         /\ stdout w' = stdout w ++ [loop_prompt; loop_rule;
                                                     "Result ==> " +:+ text])
                      \/ (exists e,
                            r = Raise e
                            /\ stdout w' = stdout w ++ [loop_prompt; loop_rule]))
       end.
Proof.
  unfold app_turn, bind at 1, input.
  destruct (stdin w) as [|line rest] eqn:Hin.
  - do 2 eexists. split; [reflexivity|]. simpl. auto.
  - unfold Spec.blank. destruct (PyStr.truthy (PyStr.strip line)); simpl negb.
    + unfold bind at 1, print at 1. unfold bind at 1.
      match goal with
      | |- context [identify_and_suggest _ _ _ _ ?w1] =>
          pose proof (identify_and_suggest_calls similarity_search generate
                        (PyStr.strip line) None w1) as (Hi & Ho & Hc);
          pose proof (identify_and_suggest_ok_calls (PyStr.strip line) None w1)
            as Hok;
          destruct (identify_and_suggest similarity_search generate
                      (PyStr.strip line) None w1) as [[text|e] w2]
      end; simpl in Hi, Ho, Hc, Hok.
      * destruct (Hok text eq_refl) as [c Hc'].
        unfold bind, print, ret. simpl.
        do 2 eexists. split; [reflexivity|]. simpl. split; [exact Hi|].
        eexists. split; [exact Hc'|]. split; [reflexivity|].
        left. exists text, c. split; [reflexivity|]. split; [reflexivity|].
        split; [reflexivity|].
        rewrite Ho, <- !app_assoc. reflexivity.
      * do 2 eexists. split; [reflexivity|]. simpl. split; [exact Hi|].
        destruct Hc as [Hc | [c Hc]]; rewrite Hc;
          (eexists; split; [reflexivity|]; split; [reflexivity|]);
          right; exists e; (split; [reflexivity|]);
          rewrite Ho, <- !app_assoc; reflexivity.
    + unfold bind, print, ret. simpl.
      do 2 eexists. split; [reflexivity|]. simpl.
      split; [reflexivity|]. split; [reflexivity|]. split; [reflexivity|].
      now rewrite <- app_assoc.
Qed.

End LoopOutcomes.

(** X6: when the input loop ends normally, a line that is blank once
    trimmed was read, the lines read before it all had an answer (one
    search and one generation each, in order, with the trimmed line), the
    lines after it are left unread, and three texts were printed per answer
    and two at the end. The calls made are, line after line, the search
    for the trimmed line followed by the generation on its prompt. *)
Theorem app_loop_normal_end {St : Type}
    (similarity_search :
       string -> Z -> gmap string string -> St -> result (list Document) * St)
    (generate : string -> list (string * string) -> St -> result string * St)
    (fuel : nat) (w w' : World) :
  app_loop similarity_search generate fuel w = Some (Ok tt, w') ->
  exists lines last new,
    stdin w = lines ++ last :: stdin w'
    /\ forallb (fun line => negb (Spec.blank line)) lines = true
    /\ Spec.blank last = true
    /\ calls w' = calls w ++ new
    /\ List.filter is_search new
       = map (fun line => EvSearch (PyStr.strip line) 3 ∅) lines
    /\ length (List.filter is_generate new) = length lines
    /\ length (stdout w') = length (stdout w) + 3 * length lines + 2
    /\ exists candidates,
         length candidates = length lines
         /\ new = concat
                    (zip_with
                       (fun line c =>
                          [EvSearch (PyStr.strip line) 3 ∅;
                           EvGenerate
                             (Spec.render_prompt (PyStr.strip line) c)
                             model_kwargs])
                       lines candidates).
Proof.
  revert w. induction fuel as [|fuel IH]; intros w H; [discriminate|].
  simpl in H.
  destruct (app_turn_outcome similarity_search generate w)
    as (r & w1 & Ht & Hcase).
  rewrite Ht in H.
  destruct (stdin w) as [|line rest] eqn:Hin.
  - destruct Hcase as (-> & _). discriminate.
  - destruct Hcase as (Hs & Hcase).
    destruct (Spec.blank line) eqn:Hb.
    + destruct Hcase as (-> & Hc & Ho). injection H as <-.
      exists [], line, []. rewrite Hs, Hc, Ho, app_nil_r, length_app.
      simpl. repeat split; auto. now exists [].
    + destruct Hcase
        as (later & Hc & Hl
            & [(text & c & -> & Hlat & Hg & Ho) | (e & -> & _)]);
        [|discriminate].
      destruct (IH w1 H)
        as (lines & last & new & H1 & H2 & H3 & H4 & H5 & H6 & H7
            & cs & Hcs1 & Hcs2).
      exists (line :: lines), last,
        (EvSearch (PyStr.strip line) 3 ∅ :: later ++ new).
      split; [rewrite <- Hs, H1; reflexivity|].
      split; [simpl; now rewrite Hb, H2|].
      split; [exact H3|].
      split; [rewrite H4, Hc, <- app_assoc; reflexivity|].
      split; [simpl; now rewrite List.filter_app, Hl, H5|].
      split; [simpl; rewrite List.filter_app, length_app, Hg, H6; reflexivity|].
      split; [rewrite H7, Ho, length_app; simpl; lia|].
      exists (c :: cs). split; [simpl; now rewrite Hcs1|].
      rewrite Hlat, Hcs2. reflexivity.
Qed.

Lemma app_loop_normal_end_witness :
  let w := Demo.world [" Green insect"; ""; "never read"] in
  let w' := world_after w (app_loop (Demo.store [Demo.mantis])
                             (Demo.llm "A mantis.") 5 w) in
  exists lines last new,
    stdin w = lines ++ last :: stdin w'
    /\ forallb (fun line => negb (Spec.blank line)) lines = true
    /\ Spec.blank last = true
    /\ calls w' = calls w ++ new
    /\ List.filter is_search new
       = map (fun line => EvSearch (PyStr.strip line) 3 ∅) lines
    /\ length (List.filter is_generate new) = length lines
    /\ length (stdout w') = length (stdout w) + 3 * length lines + 2
    /\ exists candidates,
         length candidates = length lines
         /\ new = concat
                    (zip_with
                       (fun line c =>
                          [EvSearch (PyStr.strip line) 3 ∅;
                           EvGenerate
                             (Spec.render_prompt (PyStr.strip line) c)
                             model_kwargs])
                       lines candidates).
Proof.
  cbv zeta.
  apply (app_loop_normal_end (Demo.store [Demo.mantis]) (Demo.llm "A mantis.")
           5 (Demo.world [" Green insect"; ""; "never read"])).
  vm_compute. reflexivity.
Defined.

(** X7: when no line left on the input is blank once trimmed, the loop
    cannot end normally: it stops with an error, after at most one search
    per line; on an input that is already exhausted the error is [EOFError]
    and nothing is called. *)
Theorem app_loop_needs_blank_line {St : Type}
    (similarity_search :
       string -> Z -> gmap string string -> St -> result (list Document) * St)
    (generate : string -> list (string * string) -> St -> result string * St)
    (fuel : nat) (w : World) :
  forallb (fun line => negb (Spec.blank line)) (stdin w) = true ->
  length (stdin w) < fuel ->
  exists e w' new,
    app_loop similarity_search generate fuel w = Some (Raise e, w')
    /\ calls w' = calls w ++ new
    /\ length (List.filter is_search new) <= length (stdin w)
    /\ (stdin w = [] -> e = EOFError /\ new = []).
Proof.
  revert w. induction fuel as [|fuel IH]; intros w Hl Hf; [lia|].
  simpl.
  destruct (app_turn_outcome similarity_search generate w)
    as (r & w1 & Ht & Hcase).
  rewrite Ht.
  destruct (stdin w) as [|line rest] eqn:Hin.
  - destruct Hcase as (-> & Hc & _).
    exists EOFError, w1, []. rewrite Hc, app_nil_r. simpl. auto.
  - destruct Hcase as (Hs & Hcase).
    simpl in Hl. apply andb_true_iff in Hl as [Hb Hl].
    apply negb_true_iff in Hb. rewrite Hb in Hcase.
    destruct Hcase
      as (later & Hc & Hlater & [(text & c & -> & _) | (e & -> & _)]).
    + rewrite <- Hs in Hl.
      destruct (IH w1 Hl ltac:(rewrite Hs; simpl in Hf; lia))
        as (e & w' & new & Hrun & Hc' & Hn & _).
      exists e, w', (EvSearch (PyStr.strip line) 3 ∅ :: later ++ new).
      split; [exact Hrun|].
      split; [rewrite Hc', Hc, <- app_assoc; reflexivity|].
      split; [|discriminate].
      simpl. rewrite List.filter_app, Hlater. simpl. rewrite Hs in Hn. lia.
    + exists e, w1, (EvSearch (PyStr.strip line) 3 ∅ :: later).
      split; [reflexivity|]. split; [exact Hc|].
      split; [|discriminate]. simpl. rewrite Hlater. simpl. lia.
Qed.

Lemma app_loop_needs_blank_line_witness :
  exists e w' new,
    app_loop (Demo.store [Demo.mantis]) (Demo.llm "A mantis.") 4
      (Demo.world [" Green insect"; "Brown one"])
    = Some (Raise e, w')
    /\ calls w' = [] ++ new
    /\ length (List.filter is_search new) <= 2
    /\ ([" Green insect"; "Brown one"] = [] -> e = EOFError /\ new = []).
Proof.
  apply (app_loop_needs_blank_line (Demo.store [Demo.mantis])
           (Demo.llm "A mantis.") 4 (Demo.world [" Green insect"; "Brown one"])).
  - vm_compute. reflexivity.
  - simpl. lia.
Defined.

Lemma app_loop_error_last_print {St : Type}
    (similarity_search :
       string -> Z -> gmap string string -> St -> result (list Document) * St)
    (generate : string -> list (string * string) -> St -> result string * St)
    (fuel : nat) (w w' : World) (e : exn) :
  app_loop similarity_search generate fuel w = Some (Raise e, w') ->
  last (stdout w') = Some loop_prompt \/ last (stdout w') = Some loop_rule.
Proof.
  revert w. induction fuel as [|fuel IH]; intros w H; [discriminate|].
  simpl in H.
  destruct (app_turn_outcome similarity_search generate w)
    as (r & w1 & Ht & Hcase).
  rewrite Ht in H.
  destruct (stdin w) as [|line rest] eqn:Hin.
  - destruct Hcase as (-> & _ & _ & Ho). injection H as <- <-.
    left. rewrite Ho. apply last_snoc.
  - destruct Hcase as (_ & Hcase).
    destruct (Spec.blank line).
    + destruct Hcase as (-> & _). discriminate.
    + destruct Hcase
        as (later & _ & _ & [(text & c & -> & _) | (e' & -> & Ho)]).
      * exact (IH w1 H).
      * injection H as <- <-. right. rewrite Ho.
        change [loop_prompt; loop_rule] with ([loop_prompt] ++ [loop_rule]).
        rewrite app_assoc. apply last_snoc.
Qed.

(** X8: the last cell prints its farewell exactly when the loop ended
    normally. When the loop ends normally, the cell ends normally in the
    world the loop left, with the farewell printed last and nothing else
    changed. When the loop stops with an error, the cell stops with that
    same error in the very world the loop left, where the last text
    printed is the prompt or the rule, not the farewell. Either way the
    cell's outcome is normal exactly when the farewell is the last text
    printed. *)
Theorem app_farewell {St : Type}
    (similarity_search :
       string -> Z -> gmap string string -> St -> result (list Document) * St)
    (generate : string -> list (string * string) -> St -> result string * St)
    (fuel : nat) (w : World) :
  (forall w1,
     app_loop similarity_search generate fuel w = Some (Ok tt, w1) ->
     app similarity_search generate fuel w
     = Some (Ok tt, turned w1 (stdin w1) [farewell])
     /\ last (stdout (turned w1 (stdin w1) [farewell])) = Some farewell)
  /\ (forall e w1,
        app_loop similarity_search generate fuel w = Some (Raise e, w1) ->
        app similarity_search generate fuel w = Some (Raise e, w1)
        /\ (last (stdout w1) = Some loop_prompt
            \/ last (stdout w1) = Some loop_rule)
        /\ last (stdout w1) <> Some farewell)
  /\ (app_loop similarity_search generate fuel w = None ->
      app similarity_search generate fuel w = None)
  /\ (forall r w',
        app similarity_search generate fuel w = Some (r, w') ->
        (r = Ok tt <-> last (stdout w') = Some farewell)).
Proof.
  assert (forall e w1,
            app_loop similarity_search generate fuel w = Some (Raise e, w1) ->
            last (stdout w1) <> Some farewell) as Hnot.
  { intros e w1 Hloop Hlast.
    destruct (app_loop_error_last_print _ _ _ _ _ _ Hloop) as [H | H];
      rewrite H in Hlast;
      apply (f_equal (fun o => match o with
                               | Some text => String.length text
                               | None => O
                               end)) in Hlast;
      vm_compute in Hlast; discriminate. }
  split; [|split; [|split]].
  - intros w1 Hloop. unfold app. rewrite Hloop. unfold print, turned. simpl.
    split; [reflexivity | apply last_snoc].
  - intros e w1 Hloop. unfold app. rewrite Hloop.
    split; [reflexivity|].
    split; [exact (app_loop_error_last_print _ _ _ _ _ _ Hloop)|].
    exact (Hnot e w1 Hloop).
  - intros Hloop. unfold app. now rewrite Hloop.
  - intros r w'. unfold app.
    destruct (app_loop similarity_search generate fuel w)
      as [[[[]|e] w1]|] eqn:Hloop; [| |discriminate].
    + unfold print. intros [= <- <-]. simpl.
      split; [intros _; apply last_snoc | reflexivity].
    + intros [= <- <-]. split; [discriminate|].
      intros Hlast. destruct (Hnot e w1 eq_refl Hlast).
Qed.

Lemma app_farewell_witness :
  let store := Demo.store [Demo.mantis] in
  let model := Demo.llm "A mantis." in
  let w := Demo.world [" Green insect"; ""; "never read"] in
  let w1 := world_after w (app_loop store model 5 w) in
  let v := Demo.world [" Green insect"] in
  let v1 := world_after v (app_loop store model 5 v) in
  (app store model 5 w = Some (Ok tt, turned w1 (stdin w1) [farewell])
   /\ last (stdout (turned w1 (stdin w1) [farewell])) = Some farewell)
  /\ (app store model 5 v = Some (Raise EOFError, v1)
      /\ (last (stdout v1) = Some loop_prompt
          \/ last (stdout v1) = Some loop_rule)
      /\ last (stdout v1) <> Some farewell).
Proof.
  cbv zeta. split.
  - apply (app_farewell (Demo.store [Demo.mantis]) (Demo.llm "A mantis.") 5
             (Demo.world [" Green insect"; ""; "never read"])).
    vm_compute. reflexivity.
  - apply (proj1 (proj2 (app_farewell (Demo.store [Demo.mantis])
                           (Demo.llm "A mantis.") 5
                           (Demo.world [" Green insect"])))).
    vm_compute. reflexivity.
Defined.

(** ** JSON request bodies *)

Lemma read_literal_escape_char (c : ascii) (t : string) :
  read_literal Plain (PyJson.escape_char c +:+ t)
  = keep c (read_literal Plain t).
Proof. destruct c as [[] [] [] [] [] [] [] []]; reflexivity. Qed.

(** Reading back an escaped string, up to the quote that closes it. *)
Lemma read_literal_escape (s rest : string) :
  read_literal Plain (PyJson.escape s +:+ String PyJson.dq rest)
  = Some (s, rest).
Proof.
  induction s as [|c r IH]; [reflexivity|].
  simpl PyJson.escape. rewrite string_app_assoc, read_literal_escape_char, IH.
  reflexivity.
Qed.

Lemma all_printable_app (a b : string) :
  all_printable (a +:+ b) = all_printable a && all_printable b.
Proof.
  induction a as [|c a IH]; [reflexivity|].
  rewrite string_app_cons. simpl. now rewrite IH, andb_assoc.
Qed.

Lemma escape_char_printable (c : ascii) :
  all_printable (PyJson.escape_char c) = true.
Proof. destruct c as [[] [] [] [] [] [] [] []]; reflexivity. Qed.

Lemma escape_printable (s : string) : all_printable (PyJson.escape s) = true.
Proof.
  induction s as [|c r IH]; [reflexivity|].
  simpl. now rewrite all_printable_app, escape_char_printable, IH.
Qed.

Lemma quote_printable (s : string) : all_printable (PyJson.quote s) = true.
Proof.
  unfold PyJson.quote.
  change (String PyJson.dq (PyJson.escape s +:+ String PyJson.dq ""))
    with (String PyJson.dq "" +:+ (PyJson.escape s +:+ String PyJson.dq "")).
  now rewrite !all_printable_app, escape_printable.
Qed.

Lemma utf8_encode_app (a b : string) :
  PyJson.utf8_encode (a +:+ b) = PyJson.utf8_encode a +:+ PyJson.utf8_encode b.
Proof.
  induction a as [|c a IH]; [reflexivity|].
  rewrite string_app_cons. simpl. now rewrite IH, string_app_assoc.
Qed.

Lemma utf8_encode_char_printable (c : ascii) :
  printable c = true -> PyJson.utf8_encode_char c = String c "".
Proof.
  destruct c as [[] [] [] [] [] [] [] []]; vm_compute; intros H;
    (reflexivity || discriminate H).
Qed.

(** Printable ASCII text is its own UTF-8 encoding. *)
Lemma utf8_encode_printable (s : string) :
  all_printable s = true -> PyJson.utf8_encode s = s.
Proof.
  induction s as [|c r IH]; [reflexivity|].
  simpl. intros H. apply andb_true_iff in H as [Hc Hr].
  now rewrite (utf8_encode_char_printable c Hc), (IH Hr).
Qed.

Lemma transform_input_shape (prompt : string)
    (model_kwargs : list (string * PyJson.json)) :
  ContentHandler.transform_input prompt model_kwargs
  = String "{" (String PyJson.dq ("inputs" +:+ String PyJson.dq (": "
      +:+ String PyJson.dq (PyJson.escape prompt +:+ String PyJson.dq
            (", " +:+ PyJson.utf8_encode
                        (PyJson.quote "parameters" +:+ ": "
                         +:+ PyJson.dumps (PyJson.JDict model_kwargs))
             +:+ "}"))))).
Proof.
  unfold ContentHandler.transform_input.
  change (PyJson.dumps (PyJson.JDict [("inputs", PyJson.JStr prompt);
                                      ("parameters", PyJson.JDict model_kwargs)]))
    with ("{" +:+ ((PyJson.quote "inputs" +:+ ": " +:+ PyJson.quote prompt)
                   +:+ ", "
                   +:+ (PyJson.quote "parameters" +:+ ": "
                        +:+ PyJson.dumps (PyJson.JDict model_kwargs)))
          +:+ "}").
  rewrite !utf8_encode_app.
  rewrite (utf8_encode_printable (PyJson.quote prompt)) by apply quote_printable.
  rewrite (utf8_encode_printable (PyJson.quote "inputs")) by reflexivity.
  rewrite (utf8_encode_printable "{"), (utf8_encode_printable "}"),
    (utf8_encode_printable ": "), (utf8_encode_printable ", ") by reflexivity.
  unfold PyJson.quote.
  rewrite !string_app_assoc, !string_app_cons. simpl PyJson.escape.
  rewrite !string_app_assoc, !string_app_cons.
  reflexivity.
Qed.

(** X9: for a prompt whose characters are code points below 256 (the
    strings of this development), the request body of the language model
    starts with the key "inputs" and the prompt as a JSON string literal,
    and reading that literal back gives the prompt, be it made of quotes,
    backslashes, newlines, control characters or Latin-1 letters; so two
    calls with different prompts of that kind never send the same body.
    Nothing is stated about prompts with code points from 256 on, which
    [json.dumps] writes differently. *)
Theorem transform_input_keeps_prompt (prompt : string)
    (model_kwargs : list (string * PyJson.json)) :
  (exists rest,
     ContentHandler.transform_input prompt model_kwargs
     = String "{" (String PyJson.dq ("inputs" +:+ String PyJson.dq (": "
         +:+ String PyJson.dq (PyJson.escape prompt +:+ String PyJson.dq rest))))
     /\ read_literal Plain (PyJson.escape prompt +:+ String PyJson.dq rest)
        = Some (prompt, rest))
  /\ forall prompt' model_kwargs',
       ContentHandler.transform_input prompt' model_kwargs'
       = ContentHandler.transform_input prompt model_kwargs ->
       prompt' = prompt.
Proof.
  split.
  - eexists. split; [apply transform_input_shape | apply read_literal_escape].
  - intros prompt' model_kwargs' H.
    rewrite !transform_input_shape in H.
    injection H as H.
    apply (f_equal (read_literal Plain)) in H.
    rewrite !read_literal_escape in H. now injection H.
Qed.

Lemma json_induction (P : PyJson.json -> Prop) :
  P PyJson.JNull ->
  (forall b, P (PyJson.JBool b)) ->
  (forall n, P (PyJson.JInt n)) ->
  (forall repr, P (PyJson.JFloat repr)) ->
  (forall s, P (PyJson.JStr s)) ->
  (forall items, Forall P items -> P (PyJson.JList items)) ->
  (forall items, Forall (fun kv => P (snd kv)) items -> P (PyJson.JDict items)) ->
  forall v, P v.
Proof.
  intros Hnull Hbool Hint Hfloat Hstr Hlist Hdict.
  fix IH 1. intros [| b | n | repr | s | items | items].
  - exact Hnull.
  - apply Hbool.
  - apply Hint.
  - apply Hfloat.
  - apply Hstr.
  - apply Hlist. induction items as [|x rest IHrest]; constructor.
    + apply IH.
    + exact IHrest.
  - apply Hdict. induction items as [|[k x] rest IHrest]; constructor.
    + apply IH.
    + exact IHrest.
Qed.

Lemma uint_printable (d : Decimal.uint) :
  all_printable (NilEmpty.string_of_uint d) = true.
Proof. induction d; simpl; auto. Qed.

Lemma of_Z_printable (n : Z) : all_printable (PyJson.of_Z n) = true.
Proof.
  unfold PyJson.of_Z, NilZero.string_of_int.
  destruct (Z.to_int n) as [d|d].
  - unfold NilZero.string_of_uint. destruct d; try reflexivity;
      apply (uint_printable (_ d)).
  - simpl. unfold NilZero.string_of_uint. destruct d; try reflexivity;
      apply (uint_printable (_ d)).
Qed.

Lemma join_printable (sep : string) (parts : list string) :
  all_printable sep = true ->
  Forall (fun p => all_printable p = true) parts ->
  all_printable (PyStr.join sep parts) = true.
Proof.
  intros Hsep H. induction H as [|p rest Hp Hrest IH]; [reflexivity|].
  simpl. destruct rest as [|q rest']; [exact Hp|].
  now rewrite !all_printable_app, Hp, Hsep, IH.
Qed.

Lemma dumps_printable (v : PyJson.json) :
  floats_printable v = true -> all_printable (PyJson.dumps v) = true.
Proof.
  induction v as [| b | n | repr | s | items IH | items IH] using json_induction;
    intros H.
  - reflexivity.
  - now destruct b.
  - apply of_Z_printable.
  - exact H.
  - apply quote_printable.
  - simpl PyJson.dumps. rewrite !all_printable_app.
    rewrite join_printable; [reflexivity | reflexivity |].
    simpl in H. apply Forall_map.
    induction IH as [|x rest Hx Hrest IHrest]; constructor;
      simpl in H; apply andb_true_iff in H as [H1 H2]; auto.
  - simpl PyJson.dumps. rewrite !all_printable_app.
    rewrite join_printable; [reflexivity | reflexivity |].
    simpl in H. apply Forall_map.
    induction IH as [|[k x] rest Hx Hrest IHrest]; constructor;
      simpl in H; apply andb_true_iff in H as [H1 H2]; auto.
    simpl in Hx. rewrite !all_printable_app, quote_printable, (Hx H1).
    reflexivity.
Qed.

(** X10: when the floats among the sampling parameters have printable
    texts, the request body of the language model is made of printable
    ASCII characters only, whatever the prompt, and encoding it to UTF-8
    changes nothing: the bytes sent are the characters [json.dumps]
    produced. *)
Theorem transform_input_ascii (prompt : string)
    (model_kwargs : list (string * PyJson.json)) :
  floats_printable (PyJson.JDict model_kwargs) = true ->
  all_printable (ContentHandler.transform_input prompt model_kwargs) = true
  /\ ContentHandler.transform_input prompt model_kwargs
     = PyJson.dumps
         (PyJson.JDict [ ("inputs", PyJson.JStr prompt);
                         ("parameters", PyJson.JDict model_kwargs) ]).
Proof.
  intros H. unfold ContentHandler.transform_input.
  assert (all_printable
            (PyJson.dumps
               (PyJson.JDict [ ("inputs", PyJson.JStr prompt);
                               ("parameters", PyJson.JDict model_kwargs) ]))
          = true) as Hp.
  { apply dumps_printable. simpl. simpl in H. now rewrite H. }
  rewrite (utf8_encode_printable _ Hp). split; [exact Hp | reflexivity].
Qed.

Lemma transform_input_ascii_witness :
  all_printable (ContentHandler.transform_input
                   ("Is it a " +:+ String PyJson.dq ("mantis" +:+ String PyJson.dq "?")
                    +:+ LF)
                   llm_model_kwargs) = true
  /\ ContentHandler.transform_input
       ("Is it a " +:+ String PyJson.dq ("mantis" +:+ String PyJson.dq "?")
        +:+ LF)
       llm_model_kwargs
     = PyJson.dumps
         (PyJson.JDict
            [ ("inputs",
               PyJson.JStr ("Is it a " +:+ String PyJson.dq
                              ("mantis" +:+ String PyJson.dq "?") +:+ LF));
              ("parameters", PyJson.JDict llm_model_kwargs) ]).
Proof.
  apply (transform_input_ascii
           ("Is it a " +:+ String PyJson.dq ("mantis" +:+ String PyJson.dq "?")
            +:+ LF)
           llm_model_kwargs).
  vm_compute. reflexivity.
Defined.

Example transform_input_ex :
  ContentHandler.transform_input ("A moth" +:+ LF) llm_model_kwargs
  = "{" +:+ PyJson.quote "inputs" +:+ ": "
    +:+ String PyJson.dq ("A moth\n" +:+ String PyJson.dq "")
    +:+ ", " +:+ PyJson.quote "parameters" +:+ ": {"
    +:+ PyJson.quote "max_new_tokens" +:+ ": 3072, "
    +:+ PyJson.quote "top_p" +:+ ": 0.4, "
    +:+ PyJson.quote "temperature" +:+ ": 0.001}}".
Proof. vm_compute. reflexivity. Qed.

(** ** The dictionary of the embedding request *)

Lemma dict_set_fresh {A : Type} (d : list (string * A)) (k : string) (x : A) :
  k ∉ map fst d -> PyJson.dict_set d k x = d ++ [(k, x)].
Proof.
  induction d as [|[k' x'] rest IH]; intros H; [reflexivity|].
  simpl in *. apply not_elem_of_cons in H as [Hne Hrest].
  destruct (String.eqb_spec k' k) as [->|_]; [congruence|].
  now rewrite (IH Hrest).
Qed.

Lemma dict_merge_fresh {A : Type} (base extra : list (string * A)) :
  NoDup (map fst base ++ map fst extra) ->
  PyJson.dict_merge base extra = base ++ extra.
Proof.
  unfold PyJson.dict_merge. revert base.
  induction extra as [|[k x] rest IH]; intros base H; simpl.
  - now rewrite app_nil_r.
  - assert (k ∉ map fst base) as Hk.
    { apply NoDup_app in H as (_ & H & _). intros Hin.
      apply (H k Hin). simpl. left. }
    rewrite (dict_set_fresh base k x Hk).
    rewrite IH; [now rewrite <- app_assoc|].
    rewrite map_app. simpl. rewrite <- app_assoc. exact H.
Qed.

Lemma dict_merge_overridden {A : Type} (k : string) (a b : A)
    (post extra : list (string * A)) :
  is_Some (PyJson.dict_get extra k) ->
  PyJson.dict_merge ((k, a) :: post) extra
  = PyJson.dict_merge ((k, b) :: post) extra.
Proof.
  unfold PyJson.dict_merge. revert a b post.
  induction extra as [|[k' x] rest IH]; intros a b post H; simpl in *.
  - destruct H as [? H]. discriminate.
  - rewrite (String.eqb_sym k k').
    destruct (String.eqb k' k); [reflexivity|].
    now apply IH.
Qed.

(** X11: in the request of the embedding model the texts go under the key
    "text_inputs", first, followed by the model parameters in their order,
    provided no parameter has that name; a parameter named "text_inputs"
    takes the place of the texts, which are then not sent at all. *)
Theorem embedding_transform_input_override (inputs : list string)
    (model_kwargs : list (string * PyJson.json)) :
  (NoDup (map fst model_kwargs) ->
   PyJson.dict_get model_kwargs "text_inputs" = None ->
   SageMakerGPTJ6BContentHandler.transform_input inputs model_kwargs
   = PyJson.utf8_encode
       (PyJson.dumps
          (PyJson.JDict
             (("text_inputs", PyJson.JList (map PyJson.JStr inputs))
              :: model_kwargs))))
  /\ (is_Some (PyJson.dict_get model_kwargs "text_inputs") ->
      forall inputs',
        SageMakerGPTJ6BContentHandler.transform_input inputs model_kwargs
        = SageMakerGPTJ6BContentHandler.transform_input inputs' model_kwargs).
Proof.
  unfold SageMakerGPTJ6BContentHandler.transform_input. split.
  - intros Hnd Hget. rewrite dict_merge_fresh; [reflexivity|].
    simpl. apply NoDup_cons. split; [|exact Hnd].
    clear Hnd. induction model_kwargs as [|[k x] rest IH]; simpl in *.
    + apply not_elem_of_nil.
    + destruct (String.eqb_spec k "text_inputs") as [->|Hne]; [discriminate|].
      apply not_elem_of_cons. split; [congruence | now apply IH].
  - intros H inputs'.
    now rewrite (dict_merge_overridden "text_inputs"
                   (PyJson.JList (map PyJson.JStr inputs))
                   (PyJson.JList (map PyJson.JStr inputs')) [] model_kwargs H).
Qed.

Lemma embedding_transform_input_override_witness :
  SageMakerGPTJ6BContentHandler.transform_input ["a moth"; "a wasp"]
    [("normalize", PyJson.JBool true)]
  = PyJson.utf8_encode
      (PyJson.dumps
         (PyJson.JDict
            (("text_inputs",
              PyJson.JList (map PyJson.JStr ["a moth"; "a wasp"]))
             :: [("normalize", PyJson.JBool true)])))
  /\ (forall inputs',
        SageMakerGPTJ6BContentHandler.transform_input ["a moth"; "a wasp"]
          [("text_inputs", PyJson.JList [])]
        = SageMakerGPTJ6BContentHandler.transform_input inputs'
            [("text_inputs", PyJson.JList [])]).
Proof.
  split.
  - pose proof (embedding_transform_input_override ["a moth"; "a wasp"]
                  [("normalize", PyJson.JBool true)]) as [H _].
    apply H.
    + apply NoDup_singleton.
    + reflexivity.
  - pose proof (embedding_transform_input_override ["a moth"; "a wasp"]
                  [("text_inputs", PyJson.JList [])]) as [_ H].
    apply H. exists (PyJson.JList []). reflexivity.
Defined.

(** ** Decoding the model's response *)

(** X12: [transform_output] of the language model returns a value exactly
    when the decoded response is a list whose first item is a dictionary
    with the key "generated_text", and then it returns the value under that
    key; an empty list, a first item of another kind or without the key, a
    response that is not a list, and a response that cannot be decoded all
    end in an error. *)
Theorem transform_output_accepts {E : Type}
    (read_json : string -> E + PyJson.json) (output : string)
    (v : PyJson.json) :
  (ContentHandler.transform_output read_json output = inr v
   <-> exists items others,
         read_json output = inr (PyJson.JList (PyJson.JDict items :: others))
         /\ PyJson.dict_get items "generated_text" = Some v)
  /\ (read_json output = inr (PyJson.JList []) ->
      ContentHandler.transform_output read_json output = inl PyJson.NoIndex)
  /\ (forall e, read_json output = inl e ->
      ContentHandler.transform_output read_json output
      = inl (PyJson.Undecoded e)).
Proof.
  unfold ContentHandler.transform_output. split; [|split].
  - split.
    + destruct (read_json output) as [e|response]; [discriminate|].
      destruct response as [| b | n | repr | s | items | items];
        simpl; try discriminate.
      * destruct s; simpl; discriminate.
      * destruct items as [|first others]; [discriminate|]. simpl.
        destruct first as [| b | n | repr | s | items' | items'];
          simpl; try discriminate.
        destruct (PyJson.dict_get items' "generated_text") as [x|] eqn:Hx;
          [|discriminate].
        intros [= <-]. now exists items', others.
    + intros (items & others & -> & Hget). simpl. now rewrite Hget.
  - intros ->. reflexivity.
  - intros e ->. reflexivity.
Qed.

Lemma transform_output_accepts_witness :
  ContentHandler.transform_output
    (fun _ : string =>
       inr (PyJson.JList []) : unit + PyJson.json) "[]"
  = inl PyJson.NoIndex
  /\ ContentHandler.transform_output
       (fun _ : string => inl tt : unit + PyJson.json) "{"
     = inl (PyJson.Undecoded tt).
Proof.
  split.
  - apply (transform_output_accepts
             (fun _ : string => inr (PyJson.JList []) : unit + PyJson.json)
             "[]" PyJson.JNull).
    reflexivity.
  - apply (proj2 (proj2 (transform_output_accepts
             (fun _ : string => inl tt : unit + PyJson.json)
             "{" PyJson.JNull)) tt).
    reflexivity.
Defined.

(** ** The cells asking for an endpoint name *)

Lemma strip_eqb_empty (line : string) :
  String.eqb (PyStr.strip line) "" = all_space line.
Proof.
  destruct (String.eqb_spec (PyStr.strip line) "") as [H|H].
  - symmetry. now apply strip_empty_iff.
  - destruct (all_space line) eqn:E; [|reflexivity].
    apply strip_empty_iff in E. contradiction.
Qed.

(** X13: both endpoint cells keep the line typed with its surrounding
    white space removed and set their "supplied" flag exactly when that
    line has a character that is not white space; a line of spaces counts
    as no name, in which case the four lines of the notice are printed. The
    cells call neither the store nor the model. *)
Theorem endpoint_cells_supplied {St : Type} (w : @World St) (line : string)
    (rest : list string) :
  stdin w = line :: rest ->
  (exists w',
     emb_endpoint_cell w = (Ok (PyStr.strip line, negb (all_space line)), w')
     /\ stdin w' = rest /\ calls w' = calls w
     /\ length (stdout w')
        = length (stdout w) + (if all_space line then 5 else 1))
  /\ (exists w',
        llm_endpoint_cell w = (Ok (PyStr.strip line, negb (all_space line)), w')
        /\ stdin w' = rest /\ calls w' = calls w
        /\ length (stdout w')
           = length (stdout w) + (if all_space line then 5 else 1)).
Proof.
  intros Hin. split.
  - unfold emb_endpoint_cell, bind at 1, input. rewrite Hin.
    rewrite strip_eqb_empty. destruct (all_space line) eqn:E.
    + apply strip_empty_iff in E. rewrite E.
      unfold bind, print, ret. simpl. eexists. split; [reflexivity|].
      simpl. rewrite !length_app. simpl. repeat split; lia.
    + unfold ret. eexists. split; [reflexivity|].
      simpl. rewrite length_app. simpl. repeat split; lia.
  - unfold llm_endpoint_cell, bind at 1, input. rewrite Hin.
    rewrite strip_eqb_empty. destruct (all_space line) eqn:E.
    + apply strip_empty_iff in E. rewrite E.
      unfold bind, print, ret. simpl. eexists. split; [reflexivity|].
      simpl. rewrite !length_app. simpl. repeat split; lia.
    + unfold ret. eexists. split; [reflexivity|].
      simpl. rewrite length_app. simpl. repeat split; lia.
Qed.

Lemma endpoint_cells_supplied_witness :
  (exists w',
     emb_endpoint_cell (Demo.world ["  "; "jumpstart-llm"])
     = (Ok (PyStr.strip "  ", negb (all_space "  ")), w')
     /\ stdin w' = ["jumpstart-llm"] /\ calls w' = []
     /\ length (stdout w') = 0 + (if all_space "  " then 5 else 1))
  /\ (exists w',
        llm_endpoint_cell (Demo.world ["  "; "jumpstart-llm"])
        = (Ok (PyStr.strip "  ", negb (all_space "  ")), w')
        /\ stdin w' = ["jumpstart-llm"] /\ calls w' = []
        /\ length (stdout w') = 0 + (if all_space "  " then 5 else 1)).
Proof.
  apply (endpoint_cells_supplied (Demo.world ["  "; "jumpstart-llm"]) "  "
           ["jumpstart-llm"]).
  reflexivity.
Defined.

Example endpoint_cell_ex :
  fst (emb_endpoint_cell (Demo.world [" gpt-j-endpoint "]))
  = Ok ("gpt-j-endpoint", true)
  /\ fst (llm_endpoint_cell (Demo.world [""])) = Ok ("", false)
  /\ fst (llm_endpoint_cell (Demo.world [])) = Raise EOFError.
Proof. repeat split. Qed.

Lemma transform_input_keeps_prompt_witness :
  (exists rest,
     ContentHandler.transform_input ("A moth" +:+ LF) llm_model_kwargs
     = String "{" (String PyJson.dq ("inputs" +:+ String PyJson.dq (": "
         +:+ String PyJson.dq (PyJson.escape ("A moth" +:+ LF)
                               +:+ String PyJson.dq rest))))
     /\ read_literal Plain (PyJson.escape ("A moth" +:+ LF)
                            +:+ String PyJson.dq rest)
        = Some ("A moth" +:+ LF, rest))
  /\ "A moth" +:+ LF = "A moth" +:+ LF.
Proof.
  pose proof (transform_input_keeps_prompt ("A moth" +:+ LF) llm_model_kwargs)
    as [H1 H2].
  split; [exact H1|].
  apply (H2 ("A moth" +:+ LF) llm_model_kwargs). reflexivity.
Defined.
